(** * VulkanCommandBuffer.cpp: image-layout transitions and stage inference

    Shallow embedding of
    [Graphics/GraphicsEngineVulkan/src/VulkanUtilities/VulkanCommandBuffer.cpp]:

    - [PipelineStageFromAccessFlags]: the bit-scanning loop that maps an
      access mask to the pipeline stages able to perform those accesses;
    - [TransitionImageLayout]: the two layout switches that fill in the
      access masks of a [VkImageMemoryBarrier], the optional stage
      inference, and the single [vkCmdPipelineBarrier] call;
    - [FlushBarriers]: the (empty) batching entry point.

    [VkFlags] values are 32-bit unsigned integers, modelled as [Z] with the
    wrap-around of every arithmetic operation written out. *)

From Stdlib Require Import ZArith List Bool String Lia.
Import ListNotations.

Local Open Scope Z_scope.

(** ** Machine integers *)

Definition uint32 (z : Z) : Prop := 0 <= z < 2 ^ 32.

Definition wrap32 (z : Z) : Z := z mod 2 ^ 32.

(** [x - y] and [~x] on [uint32_t]. *)
Definition sub32 (x y : Z) : Z := wrap32 (x - y).
Definition not32 (x : Z) : Z := wrap32 (Z.lnot x).

(** ** Vulkan types and enumerators

    The numeric values are those of the Vulkan headers ([vulkan_core.h]). *)

Definition VkFlags := Z.
Definition VkAccessFlags := VkFlags.
Definition VkAccessFlagBits := Z.
Definition VkPipelineStageFlags := VkFlags.
Definition VkImageAspectFlags := VkFlags.
Definition VkDependencyFlags := VkFlags.
Definition VkImageLayout := Z.
Definition VkStructureType := Z.
(** Handles are opaque; only the null handle is distinguished. *)
Definition VkCommandBuffer := Z.
Definition VkImage := Z.
Definition VkBuffer := Z.

Definition VK_NULL_HANDLE : Z := 0.
Definition VK_QUEUE_FAMILY_IGNORED : Z := 0xFFFFFFFF.
Definition VK_STRUCTURE_TYPE_IMAGE_MEMORY_BARRIER : VkStructureType := 45.

Definition VK_ACCESS_INDIRECT_COMMAND_READ_BIT : VkAccessFlagBits := 0x00000001.
Definition VK_ACCESS_INDEX_READ_BIT : VkAccessFlagBits := 0x00000002.
Definition VK_ACCESS_VERTEX_ATTRIBUTE_READ_BIT : VkAccessFlagBits := 0x00000004.
Definition VK_ACCESS_UNIFORM_READ_BIT : VkAccessFlagBits := 0x00000008.
Definition VK_ACCESS_INPUT_ATTACHMENT_READ_BIT : VkAccessFlagBits := 0x00000010.
Definition VK_ACCESS_SHADER_READ_BIT : VkAccessFlagBits := 0x00000020.
Definition VK_ACCESS_SHADER_WRITE_BIT : VkAccessFlagBits := 0x00000040.
Definition VK_ACCESS_COLOR_ATTACHMENT_READ_BIT : VkAccessFlagBits := 0x00000080.
Definition VK_ACCESS_COLOR_ATTACHMENT_WRITE_BIT : VkAccessFlagBits := 0x00000100.
Definition VK_ACCESS_DEPTH_STENCIL_ATTACHMENT_READ_BIT : VkAccessFlagBits := 0x00000200.
Definition VK_ACCESS_DEPTH_STENCIL_ATTACHMENT_WRITE_BIT : VkAccessFlagBits := 0x00000400.
Definition VK_ACCESS_TRANSFER_READ_BIT : VkAccessFlagBits := 0x00000800.
Definition VK_ACCESS_TRANSFER_WRITE_BIT : VkAccessFlagBits := 0x00001000.
Definition VK_ACCESS_HOST_READ_BIT : VkAccessFlagBits := 0x00002000.
Definition VK_ACCESS_HOST_WRITE_BIT : VkAccessFlagBits := 0x00004000.
Definition VK_ACCESS_MEMORY_READ_BIT : VkAccessFlagBits := 0x00008000.
Definition VK_ACCESS_MEMORY_WRITE_BIT : VkAccessFlagBits := 0x00010000.

Definition VK_PIPELINE_STAGE_TOP_OF_PIPE_BIT : VkPipelineStageFlags := 0x00000001.
Definition VK_PIPELINE_STAGE_DRAW_INDIRECT_BIT : VkPipelineStageFlags := 0x00000002.
Definition VK_PIPELINE_STAGE_VERTEX_INPUT_BIT : VkPipelineStageFlags := 0x00000004.
Definition VK_PIPELINE_STAGE_VERTEX_SHADER_BIT : VkPipelineStageFlags := 0x00000008.
Definition VK_PIPELINE_STAGE_TESSELLATION_CONTROL_SHADER_BIT : VkPipelineStageFlags := 0x00000010.
Definition VK_PIPELINE_STAGE_TESSELLATION_EVALUATION_SHADER_BIT : VkPipelineStageFlags := 0x00000020.
Definition VK_PIPELINE_STAGE_GEOMETRY_SHADER_BIT : VkPipelineStageFlags := 0x00000040.
Definition VK_PIPELINE_STAGE_FRAGMENT_SHADER_BIT : VkPipelineStageFlags := 0x00000080.
Definition VK_PIPELINE_STAGE_EARLY_FRAGMENT_TESTS_BIT : VkPipelineStageFlags := 0x00000100.
Definition VK_PIPELINE_STAGE_LATE_FRAGMENT_TESTS_BIT : VkPipelineStageFlags := 0x00000200.
Definition VK_PIPELINE_STAGE_COLOR_ATTACHMENT_OUTPUT_BIT : VkPipelineStageFlags := 0x00000400.
Definition VK_PIPELINE_STAGE_COMPUTE_SHADER_BIT : VkPipelineStageFlags := 0x00000800.
Definition VK_PIPELINE_STAGE_TRANSFER_BIT : VkPipelineStageFlags := 0x00001000.
Definition VK_PIPELINE_STAGE_BOTTOM_OF_PIPE_BIT : VkPipelineStageFlags := 0x00002000.
Definition VK_PIPELINE_STAGE_HOST_BIT : VkPipelineStageFlags := 0x00004000.

Definition VK_IMAGE_LAYOUT_UNDEFINED : VkImageLayout := 0.
Definition VK_IMAGE_LAYOUT_GENERAL : VkImageLayout := 1.
Definition VK_IMAGE_LAYOUT_COLOR_ATTACHMENT_OPTIMAL : VkImageLayout := 2.
Definition VK_IMAGE_LAYOUT_DEPTH_STENCIL_ATTACHMENT_OPTIMAL : VkImageLayout := 3.
Definition VK_IMAGE_LAYOUT_DEPTH_STENCIL_READ_ONLY_OPTIMAL : VkImageLayout := 4.
Definition VK_IMAGE_LAYOUT_SHADER_READ_ONLY_OPTIMAL : VkImageLayout := 5.
Definition VK_IMAGE_LAYOUT_TRANSFER_SRC_OPTIMAL : VkImageLayout := 6.
Definition VK_IMAGE_LAYOUT_TRANSFER_DST_OPTIMAL : VkImageLayout := 7.
Definition VK_IMAGE_LAYOUT_PREINITIALIZED : VkImageLayout := 8.
Definition VK_IMAGE_LAYOUT_DEPTH_READ_ONLY_STENCIL_ATTACHMENT_OPTIMAL : VkImageLayout := 1000117000.
Definition VK_IMAGE_LAYOUT_DEPTH_ATTACHMENT_STENCIL_READ_ONLY_OPTIMAL : VkImageLayout := 1000117001.
Definition VK_IMAGE_LAYOUT_PRESENT_SRC_KHR : VkImageLayout := 1000001002.

(** ** Outcomes of a call

    A call either returns, or stops at a contract violation, or (for the
    fuel-bounded [while] loop only) exhausts its iteration budget. *)

Inductive outcome (A : Type) : Type :=
| Returns (a : A)
| Aborts (msg : string)
| OutOfFuel.
Arguments Returns {A} a.
Arguments Aborts {A} msg.
Arguments OutOfFuel {A}.

Definition obind {A B : Type} (r : outcome A) (k : A -> outcome B) : outcome B :=
  match r with
  | Returns a => k a
  | Aborts msg => Aborts msg
  | OutOfFuel => OutOfFuel
  end.

Declare Scope outcome_scope.
Delimit Scope outcome_scope with outcome.
Notation "x <- e ;; k" := (obind e (fun x => k))
  (at level 61, e at next level, right associativity) : outcome_scope.
Notation "e ;; k" := (obind e (fun _ => k))
  (at level 61, right associativity) : outcome_scope.

(** Modelled from the spec: the [UNEXPECTED] macro is declared in a header
    that is not part of this file.  Section 7 of the specification makes every
    contract violation fatal and unrecoverable at the point of detection:
    execution stops there with the given message. *)
Definition UNEXPECTED {A : Type} (msg : string) : outcome A := Aborts msg.

(** Modelled from the spec: the [VERIFY_EXPR] macro is declared in the same
    missing header; a false expression is a contract violation. *)
Definition VERIFY_EXPR (Expr : bool) (text : string) : outcome unit :=
  if Expr then Returns tt else Aborts text.

(** ** PipelineStageFromAccessFlags *)

Definition ALL_GRAPHICS_SHADER_STAGES_BITS : VkPipelineStageFlags :=
  Z.lor VK_PIPELINE_STAGE_VERTEX_SHADER_BIT
 (Z.lor VK_PIPELINE_STAGE_TESSELLATION_CONTROL_SHADER_BIT
 (Z.lor VK_PIPELINE_STAGE_TESSELLATION_EVALUATION_SHADER_BIT
 (Z.lor VK_PIPELINE_STAGE_GEOMETRY_SHADER_BIT
        VK_PIPELINE_STAGE_FRAGMENT_SHADER_BIT))).

Definition Unknown_memory_access_flag : string := "Unknown memory access flag".

(** The [switch (AccessFlag)] of the loop body: the new value of [Stages]. *)
Definition switch_AccessFlag (AccessFlag : VkAccessFlagBits)
    (Stages : VkPipelineStageFlags) : outcome VkPipelineStageFlags :=
  if AccessFlag =? VK_ACCESS_INDIRECT_COMMAND_READ_BIT then
    Returns (Z.lor Stages VK_PIPELINE_STAGE_DRAW_INDIRECT_BIT)
  else if AccessFlag =? VK_ACCESS_INDEX_READ_BIT then
    Returns (Z.lor Stages VK_PIPELINE_STAGE_VERTEX_INPUT_BIT)
  else if AccessFlag =? VK_ACCESS_VERTEX_ATTRIBUTE_READ_BIT then
    Returns (Z.lor Stages VK_PIPELINE_STAGE_VERTEX_INPUT_BIT)
  else if AccessFlag =? VK_ACCESS_UNIFORM_READ_BIT then
    Returns (Z.lor Stages (Z.lor ALL_GRAPHICS_SHADER_STAGES_BITS VK_PIPELINE_STAGE_COMPUTE_SHADER_BIT))
  else if AccessFlag =? VK_ACCESS_INPUT_ATTACHMENT_READ_BIT then
    Returns (Z.lor Stages VK_PIPELINE_STAGE_FRAGMENT_SHADER_BIT)
  else if AccessFlag =? VK_ACCESS_SHADER_READ_BIT then
    Returns (Z.lor Stages (Z.lor ALL_GRAPHICS_SHADER_STAGES_BITS VK_PIPELINE_STAGE_COMPUTE_SHADER_BIT))
  else if AccessFlag =? VK_ACCESS_SHADER_WRITE_BIT then
    Returns (Z.lor Stages (Z.lor ALL_GRAPHICS_SHADER_STAGES_BITS VK_PIPELINE_STAGE_COMPUTE_SHADER_BIT))
  else if AccessFlag =? VK_ACCESS_COLOR_ATTACHMENT_READ_BIT then
    Returns (Z.lor Stages VK_PIPELINE_STAGE_COLOR_ATTACHMENT_OUTPUT_BIT)
  else if AccessFlag =? VK_ACCESS_COLOR_ATTACHMENT_WRITE_BIT then
    Returns (Z.lor Stages VK_PIPELINE_STAGE_COLOR_ATTACHMENT_OUTPUT_BIT)
  else if AccessFlag =? VK_ACCESS_DEPTH_STENCIL_ATTACHMENT_READ_BIT then
    Returns (Z.lor Stages (Z.lor VK_PIPELINE_STAGE_EARLY_FRAGMENT_TESTS_BIT VK_PIPELINE_STAGE_LATE_FRAGMENT_TESTS_BIT))
  else if AccessFlag =? VK_ACCESS_DEPTH_STENCIL_ATTACHMENT_WRITE_BIT then
    Returns (Z.lor Stages (Z.lor VK_PIPELINE_STAGE_EARLY_FRAGMENT_TESTS_BIT VK_PIPELINE_STAGE_LATE_FRAGMENT_TESTS_BIT))
  else if AccessFlag =? VK_ACCESS_TRANSFER_READ_BIT then
    Returns (Z.lor Stages VK_PIPELINE_STAGE_TRANSFER_BIT)
  else if AccessFlag =? VK_ACCESS_TRANSFER_WRITE_BIT then
    Returns (Z.lor Stages VK_PIPELINE_STAGE_TRANSFER_BIT)
  else if AccessFlag =? VK_ACCESS_HOST_READ_BIT then
    Returns (Z.lor Stages VK_PIPELINE_STAGE_HOST_BIT)
  else if AccessFlag =? VK_ACCESS_HOST_WRITE_BIT then
    Returns (Z.lor Stages VK_PIPELINE_STAGE_HOST_BIT)
  else if AccessFlag =? VK_ACCESS_MEMORY_READ_BIT then
    Returns Stages
  else if AccessFlag =? VK_ACCESS_MEMORY_WRITE_BIT then
    Returns Stages
  else
    UNEXPECTED Unknown_memory_access_flag.

(** [AccessFlags & (~(AccessFlags-1))]: the flag picked by an iteration. *)
Definition pick_AccessFlag (AccessFlags : VkAccessFlags) : VkAccessFlagBits :=
  Z.land AccessFlags (not32 (sub32 AccessFlags 1)).

(** One execution of the loop body, from the values of [AccessFlags] and
    [Stages] at its entry to their values at its exit. *)
Definition loop_body (AccessFlags : VkAccessFlags) (Stages : VkPipelineStageFlags)
    : outcome (VkAccessFlags * VkPipelineStageFlags) :=
  (let AccessFlag := pick_AccessFlag AccessFlags in
   VERIFY_EXPR (negb (AccessFlag =? 0) && (Z.land AccessFlag (sub32 AccessFlag 1) =? 0))
               "AccessFlag != 0 && (AccessFlag & (AccessFlag-1)) == 0" ;;
   let AccessFlags := Z.land AccessFlags (not32 AccessFlag) in
   Stages <- switch_AccessFlag AccessFlag Stages ;;
   Returns (AccessFlags, Stages))%outcome.

(** [while (AccessFlags != 0) { ... }], with [fuel] bounding the number of
    times the body may run. *)
Fixpoint while_AccessFlags (fuel : nat) (AccessFlags : VkAccessFlags)
    (Stages : VkPipelineStageFlags) : outcome VkPipelineStageFlags :=
  if AccessFlags =? 0 then Returns Stages
  else match fuel with
       | O => OutOfFuel
       | S fuel' =>
           match loop_body AccessFlags Stages with
           | Returns (AccessFlags', Stages') => while_AccessFlags fuel' AccessFlags' Stages'
           | Aborts msg => Aborts msg
           | OutOfFuel => OutOfFuel
           end
       end.

(** A 32-bit mask has at most 32 set bits and every iteration clears one
    ([PipelineStageFromAccessFlags_terminates] below), so a budget of 32
    iterations is never exhausted. *)
Definition PipelineStageFromAccessFlags (AccessFlags : VkAccessFlags)
    : outcome VkPipelineStageFlags :=
  let Stages := 0 in
  while_AccessFlags 32 AccessFlags Stages.

(** ** Barrier structures *)

Record VkImageSubresourceRange : Type := mkVkImageSubresourceRange {
  aspectMask : VkImageAspectFlags;
  baseMipLevel : Z;
  levelCount : Z;
  baseArrayLayer : Z;
  layerCount : Z
}.

Record VkImageMemoryBarrier : Type := mkVkImageMemoryBarrier {
  sType : VkStructureType;
  pNext : Z;
  srcAccessMask : VkAccessFlags;
  dstAccessMask : VkAccessFlags;
  oldLayout : VkImageLayout;
  newLayout : VkImageLayout;
  srcQueueFamilyIndex : Z;
  dstQueueFamilyIndex : Z;
  image : VkImage;
  subresourceRange : VkImageSubresourceRange
}.

(** The other two barrier kinds of [vkCmdPipelineBarrier]; this file never
    builds one. *)
Record VkMemoryBarrier : Type := mkVkMemoryBarrier {
  mb_sType : VkStructureType;
  mb_pNext : Z;
  mb_srcAccessMask : VkAccessFlags;
  mb_dstAccessMask : VkAccessFlags
}.

Record VkBufferMemoryBarrier : Type := mkVkBufferMemoryBarrier {
  bb_sType : VkStructureType;
  bb_pNext : Z;
  bb_srcAccessMask : VkAccessFlags;
  bb_dstAccessMask : VkAccessFlags;
  bb_srcQueueFamilyIndex : Z;
  bb_dstQueueFamilyIndex : Z;
  bb_buffer : VkBuffer;
  bb_offset : Z;
  bb_size : Z
}.

(** Field assignments [ImgBarrier.f = v]. *)
Definition set_sType (v : VkStructureType) (b : VkImageMemoryBarrier) :=
  mkVkImageMemoryBarrier v (pNext b) (srcAccessMask b) (dstAccessMask b) (oldLayout b)
    (newLayout b) (srcQueueFamilyIndex b) (dstQueueFamilyIndex b) (image b) (subresourceRange b).
Definition set_pNext (v : Z) (b : VkImageMemoryBarrier) :=
  mkVkImageMemoryBarrier (sType b) v (srcAccessMask b) (dstAccessMask b) (oldLayout b)
    (newLayout b) (srcQueueFamilyIndex b) (dstQueueFamilyIndex b) (image b) (subresourceRange b).
Definition set_srcAccessMask (v : VkAccessFlags) (b : VkImageMemoryBarrier) :=
  mkVkImageMemoryBarrier (sType b) (pNext b) v (dstAccessMask b) (oldLayout b)
    (newLayout b) (srcQueueFamilyIndex b) (dstQueueFamilyIndex b) (image b) (subresourceRange b).
Definition set_dstAccessMask (v : VkAccessFlags) (b : VkImageMemoryBarrier) :=
  mkVkImageMemoryBarrier (sType b) (pNext b) (srcAccessMask b) v (oldLayout b)
    (newLayout b) (srcQueueFamilyIndex b) (dstQueueFamilyIndex b) (image b) (subresourceRange b).
Definition set_oldLayout (v : VkImageLayout) (b : VkImageMemoryBarrier) :=
  mkVkImageMemoryBarrier (sType b) (pNext b) (srcAccessMask b) (dstAccessMask b) v
    (newLayout b) (srcQueueFamilyIndex b) (dstQueueFamilyIndex b) (image b) (subresourceRange b).
Definition set_newLayout (v : VkImageLayout) (b : VkImageMemoryBarrier) :=
  mkVkImageMemoryBarrier (sType b) (pNext b) (srcAccessMask b) (dstAccessMask b) (oldLayout b)
    v (srcQueueFamilyIndex b) (dstQueueFamilyIndex b) (image b) (subresourceRange b).
Definition set_srcQueueFamilyIndex (v : Z) (b : VkImageMemoryBarrier) :=
  mkVkImageMemoryBarrier (sType b) (pNext b) (srcAccessMask b) (dstAccessMask b) (oldLayout b)
    (newLayout b) v (dstQueueFamilyIndex b) (image b) (subresourceRange b).
Definition set_dstQueueFamilyIndex (v : Z) (b : VkImageMemoryBarrier) :=
  mkVkImageMemoryBarrier (sType b) (pNext b) (srcAccessMask b) (dstAccessMask b) (oldLayout b)
    (newLayout b) (srcQueueFamilyIndex b) v (image b) (subresourceRange b).
Definition set_image (v : VkImage) (b : VkImageMemoryBarrier) :=
  mkVkImageMemoryBarrier (sType b) (pNext b) (srcAccessMask b) (dstAccessMask b) (oldLayout b)
    (newLayout b) (srcQueueFamilyIndex b) (dstQueueFamilyIndex b) v (subresourceRange b).
Definition set_subresourceRange (v : VkImageSubresourceRange) (b : VkImageMemoryBarrier) :=
  mkVkImageMemoryBarrier (sType b) (pNext b) (srcAccessMask b) (dstAccessMask b) (oldLayout b)
    (newLayout b) (srcQueueFamilyIndex b) (dstQueueFamilyIndex b) (image b) v.
Definition set_aspectMask (v : VkImageAspectFlags) (r : VkImageSubresourceRange) :=
  mkVkImageSubresourceRange v (baseMipLevel r) (levelCount r) (baseArrayLayer r) (layerCount r).

(** [VkImageMemoryBarrier ImgBarrier = {};] *)
Definition zero_VkImageMemoryBarrier : VkImageMemoryBarrier :=
  mkVkImageMemoryBarrier 0 0 0 0 0 0 0 0 0 (mkVkImageSubresourceRange 0 0 0 0 0).

(** ** The recording context

    [vkCmdPipelineBarrier] belongs to the Vulkan driver.  Its effect is to
    append the command, with the arrays its pointer arguments designate, to
    the recording of the command buffer it is given. *)

Record PipelineBarrierCmd : Type := mkPipelineBarrierCmd {
  commandBuffer : VkCommandBuffer;
  srcStageMask : VkPipelineStageFlags;
  dstStageMask : VkPipelineStageFlags;
  dependencyFlags : VkDependencyFlags;
  memoryBarrierCount : Z;
  pMemoryBarriers : list VkMemoryBarrier;
  bufferMemoryBarrierCount : Z;
  pBufferMemoryBarriers : list VkBufferMemoryBarrier;
  imageMemoryBarrierCount : Z;
  pImageMemoryBarriers : list VkImageMemoryBarrier
}.

(** [recorded]: the commands recorded so far, oldest first.
    [stage_queries]: instrumentation only, the arguments of the calls made to
    [PipelineStageFromAccessFlags], oldest first. *)
Record State : Type := mkState {
  recorded : list PipelineBarrierCmd;
  stage_queries : list VkAccessFlags
}.

Definition M (A : Type) : Type := State -> outcome A * State.

Definition ret {A : Type} (a : A) : M A := fun st => (Returns a, st).

Definition bind {A B : Type} (m : M A) (k : A -> M B) : M B :=
  fun st =>
    match m st with
    | (Returns a, st') => k a st'
    | (Aborts msg, st') => (Aborts msg, st')
    | (OutOfFuel, st') => (OutOfFuel, st')
    end.

(** A computation that touches no state. *)
Definition pure {A : Type} (r : outcome A) : M A := fun st => (r, st).

Declare Scope M_scope.
Delimit Scope M_scope with M.
Notation "x <- e ;; k" := (bind e (fun x => k))
  (at level 61, e at next level, right associativity) : M_scope.
Notation "e ;; k" := (bind e (fun _ => k))
  (at level 61, right associativity) : M_scope.

Definition vkCmdPipelineBarrier (commandBuffer : VkCommandBuffer)
    (srcStageMask dstStageMask : VkPipelineStageFlags) (dependencyFlags : VkDependencyFlags)
    (memoryBarrierCount : Z) (pMemoryBarriers : list VkMemoryBarrier)
    (bufferMemoryBarrierCount : Z) (pBufferMemoryBarriers : list VkBufferMemoryBarrier)
    (imageMemoryBarrierCount : Z) (pImageMemoryBarriers : list VkImageMemoryBarrier)
    : M unit :=
  fun st =>
    (Returns tt,
     mkState (recorded st ++
                [mkPipelineBarrierCmd commandBuffer srcStageMask dstStageMask dependencyFlags
                   memoryBarrierCount pMemoryBarriers
                   bufferMemoryBarrierCount pBufferMemoryBarriers
                   imageMemoryBarrierCount pImageMemoryBarriers])
             (stage_queries st)).

(** A call to [PipelineStageFromAccessFlags], logged. *)
Definition call_PipelineStageFromAccessFlags (AccessFlags : VkAccessFlags)
    : M VkPipelineStageFlags :=
  fun st =>
    (PipelineStageFromAccessFlags AccessFlags,
     mkState (recorded st) (stage_queries st ++ [AccessFlags])).

(** ** TransitionImageLayout *)

(** [switch (OldLayout)], lines 170-236. *)
Definition switch_OldLayout (OldLayout : VkImageLayout) (ImgBarrier : VkImageMemoryBarrier)
    : outcome VkImageMemoryBarrier :=
  if OldLayout =? VK_IMAGE_LAYOUT_UNDEFINED then
    Returns ImgBarrier
  else if OldLayout =? VK_IMAGE_LAYOUT_GENERAL then
    UNEXPECTED "General layout is not recommended"
  else if OldLayout =? VK_IMAGE_LAYOUT_COLOR_ATTACHMENT_OPTIMAL then
    Returns (set_srcAccessMask VK_ACCESS_COLOR_ATTACHMENT_WRITE_BIT ImgBarrier)
  else if OldLayout =? VK_IMAGE_LAYOUT_DEPTH_STENCIL_ATTACHMENT_OPTIMAL then
    Returns (set_srcAccessMask VK_ACCESS_DEPTH_STENCIL_ATTACHMENT_WRITE_BIT ImgBarrier)
  else if OldLayout =? VK_IMAGE_LAYOUT_DEPTH_STENCIL_READ_ONLY_OPTIMAL then
    Returns (set_srcAccessMask VK_ACCESS_DEPTH_STENCIL_ATTACHMENT_READ_BIT ImgBarrier)
  else if OldLayout =? VK_IMAGE_LAYOUT_SHADER_READ_ONLY_OPTIMAL then
    Returns (set_srcAccessMask VK_ACCESS_SHADER_READ_BIT ImgBarrier)
  else if OldLayout =? VK_IMAGE_LAYOUT_TRANSFER_SRC_OPTIMAL then
    Returns (set_srcAccessMask VK_ACCESS_TRANSFER_READ_BIT ImgBarrier)
  else if OldLayout =? VK_IMAGE_LAYOUT_TRANSFER_DST_OPTIMAL then
    Returns (set_srcAccessMask VK_ACCESS_TRANSFER_WRITE_BIT ImgBarrier)
  else if OldLayout =? VK_IMAGE_LAYOUT_PREINITIALIZED then
    Returns (set_srcAccessMask VK_ACCESS_HOST_WRITE_BIT ImgBarrier)
  else if OldLayout =? VK_IMAGE_LAYOUT_DEPTH_READ_ONLY_STENCIL_ATTACHMENT_OPTIMAL then
    Returns (set_srcAccessMask VK_ACCESS_DEPTH_STENCIL_ATTACHMENT_READ_BIT ImgBarrier)
  else if OldLayout =? VK_IMAGE_LAYOUT_DEPTH_ATTACHMENT_STENCIL_READ_ONLY_OPTIMAL then
    Returns (set_srcAccessMask VK_ACCESS_DEPTH_STENCIL_ATTACHMENT_READ_BIT ImgBarrier)
  else if OldLayout =? VK_IMAGE_LAYOUT_PRESENT_SRC_KHR then
    Returns (set_srcAccessMask VK_ACCESS_MEMORY_READ_BIT ImgBarrier)
  else
    UNEXPECTED "Unexpected image layout".

(** [switch (NewLayout)], lines 239-296.  The case
    [VK_IMAGE_LAYOUT_DEPTH_STENCIL_READ_ONLY_OPTIMAL] assigns [srcAccessMask],
    as line 260 does. *)
Definition switch_NewLayout (NewLayout : VkImageLayout) (ImgBarrier : VkImageMemoryBarrier)
    : outcome VkImageMemoryBarrier :=
  if NewLayout =? VK_IMAGE_LAYOUT_UNDEFINED then
    UNEXPECTED "The new layout used in a transition must not be VK_IMAGE_LAYOUT_UNDEFINED. This layout must only be used as the initialLayout member of VkImageCreateInfo or VkAttachmentDescription, or as the oldLayout in an image transition. (11.4)"
  else if NewLayout =? VK_IMAGE_LAYOUT_GENERAL then
    UNEXPECTED "General layout is not recommended due to inefficiency"
  else if NewLayout =? VK_IMAGE_LAYOUT_COLOR_ATTACHMENT_OPTIMAL then
    Returns (set_dstAccessMask VK_ACCESS_COLOR_ATTACHMENT_WRITE_BIT ImgBarrier)
  else if NewLayout =? VK_IMAGE_LAYOUT_DEPTH_STENCIL_ATTACHMENT_OPTIMAL then
    Returns (set_dstAccessMask VK_ACCESS_DEPTH_STENCIL_ATTACHMENT_WRITE_BIT ImgBarrier)
  else if NewLayout =? VK_IMAGE_LAYOUT_DEPTH_STENCIL_READ_ONLY_OPTIMAL then
    Returns (set_srcAccessMask VK_ACCESS_DEPTH_STENCIL_ATTACHMENT_READ_BIT ImgBarrier)
  else if NewLayout =? VK_IMAGE_LAYOUT_SHADER_READ_ONLY_OPTIMAL then
    Returns (set_dstAccessMask
               (Z.lor VK_ACCESS_SHADER_READ_BIT VK_ACCESS_INPUT_ATTACHMENT_READ_BIT) ImgBarrier)
  else if NewLayout =? VK_IMAGE_LAYOUT_TRANSFER_SRC_OPTIMAL then
    Returns (set_dstAccessMask VK_ACCESS_TRANSFER_READ_BIT ImgBarrier)
  else if NewLayout =? VK_IMAGE_LAYOUT_TRANSFER_DST_OPTIMAL then
    Returns (set_dstAccessMask VK_ACCESS_TRANSFER_WRITE_BIT ImgBarrier)
  else if NewLayout =? VK_IMAGE_LAYOUT_PREINITIALIZED then
    UNEXPECTED "The new layout used in a transition must not be VK_IMAGE_LAYOUT_PREINITIALIZED. This layout must only be used as the initialLayout member of VkImageCreateInfo or VkAttachmentDescription, or as the oldLayout in an image transition. (11.4)"
  else if NewLayout =? VK_IMAGE_LAYOUT_DEPTH_READ_ONLY_STENCIL_ATTACHMENT_OPTIMAL then
    Returns (set_dstAccessMask VK_ACCESS_DEPTH_STENCIL_ATTACHMENT_READ_BIT ImgBarrier)
  else if NewLayout =? VK_IMAGE_LAYOUT_DEPTH_ATTACHMENT_STENCIL_READ_ONLY_OPTIMAL then
    Returns (set_dstAccessMask VK_ACCESS_DEPTH_STENCIL_ATTACHMENT_READ_BIT ImgBarrier)
  else if NewLayout =? VK_IMAGE_LAYOUT_PRESENT_SRC_KHR then
    Returns (set_dstAccessMask VK_ACCESS_MEMORY_READ_BIT ImgBarrier)
  else
    UNEXPECTED "Unexpected image layout".

(** Lines 157-168: the barrier before the two switches. *)
Definition init_ImgBarrier (Image : VkImage) (AspectMask : VkImageAspectFlags)
    (OldLayout NewLayout : VkImageLayout) (SubresRange : VkImageSubresourceRange)
    : VkImageMemoryBarrier :=
  let ImgBarrier := zero_VkImageMemoryBarrier in
  let ImgBarrier := set_sType VK_STRUCTURE_TYPE_IMAGE_MEMORY_BARRIER ImgBarrier in
  let ImgBarrier := set_pNext 0 ImgBarrier in
  let ImgBarrier := set_srcAccessMask 0 ImgBarrier in
  let ImgBarrier := set_dstAccessMask 0 ImgBarrier in
  let ImgBarrier := set_oldLayout OldLayout ImgBarrier in
  let ImgBarrier := set_newLayout NewLayout ImgBarrier in
  let ImgBarrier := set_srcQueueFamilyIndex VK_QUEUE_FAMILY_IGNORED ImgBarrier in
  let ImgBarrier := set_dstQueueFamilyIndex VK_QUEUE_FAMILY_IGNORED ImgBarrier in
  let ImgBarrier := set_image Image ImgBarrier in
  let ImgBarrier :=
    set_subresourceRange (set_aspectMask AspectMask (subresourceRange ImgBarrier)) ImgBarrier in
  let ImgBarrier := set_subresourceRange SubresRange ImgBarrier in
  ImgBarrier.

Definition TransitionImageLayout (CmdBuffer : VkCommandBuffer) (Image : VkImage)
    (AspectMask : VkImageAspectFlags) (OldLayout NewLayout : VkImageLayout)
    (SubresRange : VkImageSubresourceRange) (SrcStages DestStages : VkPipelineStageFlags)
    : M unit :=
  (pure (VERIFY_EXPR (negb (CmdBuffer =? VK_NULL_HANDLE)) "CmdBuffer != VK_NULL_HANDLE") ;;
   let ImgBarrier := init_ImgBarrier Image AspectMask OldLayout NewLayout SubresRange in
   ImgBarrier <- pure (switch_OldLayout OldLayout ImgBarrier) ;;
   ImgBarrier <- pure (switch_NewLayout NewLayout ImgBarrier) ;;
   SrcStages <- (if SrcStages =? 0
                 then call_PipelineStageFromAccessFlags (srcAccessMask ImgBarrier)
                 else ret SrcStages) ;;
   DestStages <- (if DestStages =? 0
                  then call_PipelineStageFromAccessFlags (dstAccessMask ImgBarrier)
                  else ret DestStages) ;;
   vkCmdPipelineBarrier CmdBuffer SrcStages DestStages 0 0 [] 0 [] 1 [ImgBarrier])%M.

(** ** FlushBarriers

    A member function with an empty body: the object it is called on is
    handed back as it was. *)
Definition FlushBarriers {VulkanCommandBuffer : Type} (this : VulkanCommandBuffer)
    : M VulkanCommandBuffer :=
  ret this.

(** The layouts on which the respective switch assigns an access mask. *)
Definition supported_OldLayouts : list VkImageLayout :=
  [ VK_IMAGE_LAYOUT_UNDEFINED;
    VK_IMAGE_LAYOUT_COLOR_ATTACHMENT_OPTIMAL;
    VK_IMAGE_LAYOUT_DEPTH_STENCIL_ATTACHMENT_OPTIMAL;
    VK_IMAGE_LAYOUT_DEPTH_STENCIL_READ_ONLY_OPTIMAL;
    VK_IMAGE_LAYOUT_SHADER_READ_ONLY_OPTIMAL;
    VK_IMAGE_LAYOUT_TRANSFER_SRC_OPTIMAL;
    VK_IMAGE_LAYOUT_TRANSFER_DST_OPTIMAL;
    VK_IMAGE_LAYOUT_PREINITIALIZED;
    VK_IMAGE_LAYOUT_DEPTH_READ_ONLY_STENCIL_ATTACHMENT_OPTIMAL;
    VK_IMAGE_LAYOUT_DEPTH_ATTACHMENT_STENCIL_READ_ONLY_OPTIMAL;
    VK_IMAGE_LAYOUT_PRESENT_SRC_KHR ].

Definition supported_NewLayouts : list VkImageLayout :=
  [ VK_IMAGE_LAYOUT_COLOR_ATTACHMENT_OPTIMAL;
    VK_IMAGE_LAYOUT_DEPTH_STENCIL_ATTACHMENT_OPTIMAL;
    VK_IMAGE_LAYOUT_DEPTH_STENCIL_READ_ONLY_OPTIMAL;
    VK_IMAGE_LAYOUT_SHADER_READ_ONLY_OPTIMAL;
    VK_IMAGE_LAYOUT_TRANSFER_SRC_OPTIMAL;
    VK_IMAGE_LAYOUT_TRANSFER_DST_OPTIMAL;
    VK_IMAGE_LAYOUT_DEPTH_READ_ONLY_STENCIL_ATTACHMENT_OPTIMAL;
    VK_IMAGE_LAYOUT_DEPTH_ATTACHMENT_STENCIL_READ_ONLY_OPTIMAL;
    VK_IMAGE_LAYOUT_PRESENT_SRC_KHR ].

(** ** Auxiliary notions used to state the properties *)

(** No bit of [a] below position [k] is set. *)
Definition low_clear (k a : Z) : Prop := forall i, 0 <= i < k -> Z.testbit a i = false.

(** The number of set bits of [a] among the [n] positions from [k] upwards. *)
Fixpoint count_bits (n : nat) (k : Z) (a : Z) : nat :=
  match n with
  | O => O
  | S n' => ((if Z.testbit a k then 1 else 0) + count_bits n' (k + 1) a)%nat
  end.

Definition popcount (a : Z) : nat := count_bits 32 0 a.

(** The first set position of [a] among the [n] positions from [k] upwards. *)
Fixpoint first_set_bit (n : nat) (k : Z) (a : Z) : Z :=
  match n with
  | O => k
  | S n' => if Z.testbit a k then k else first_set_bit n' (k + 1) a
  end.

Definition lowest_set_bit (a : Z) : Z := first_set_bit 32 0 a.

(** The loop seen as one ascending pass over the bit positions: the flag of
    every set position goes through [switch_AccessFlag], lowest first. *)
Fixpoint scan_bits (n : nat) (k : Z) (AccessFlags : VkAccessFlags)
    (Stages : VkPipelineStageFlags) : outcome VkPipelineStageFlags :=
  match n with
  | O => Returns Stages
  | S n' =>
      if Z.testbit AccessFlags k
      then obind (switch_AccessFlag (2 ^ k) Stages) (scan_bits n' (k + 1) AccessFlags)
      else scan_bits n' (k + 1) AccessFlags Stages
  end.

(** Union of two stage masks, each the outcome of a call. *)
Definition union_stages (r1 r2 : outcome VkPipelineStageFlags)
    : outcome VkPipelineStageFlags :=
  (s1 <- r1 ;; s2 <- r2 ;; Returns (Z.lor s1 s2))%outcome.

(** The barrier as it leaves the two switches of [TransitionImageLayout]. *)
Definition layout_switches (Image : VkImage) (AspectMask : VkImageAspectFlags)
    (OldLayout NewLayout : VkImageLayout) (SubresRange : VkImageSubresourceRange)
    : outcome VkImageMemoryBarrier :=
  (ImgBarrier <- switch_OldLayout OldLayout
                   (init_ImgBarrier Image AspectMask OldLayout NewLayout SubresRange) ;;
   switch_NewLayout NewLayout ImgBarrier)%outcome.

(** Inclusion of bit masks: every bit of [a] is a bit of [b]. *)
Definition mask_subset (a b : Z) : Prop := Z.land a b = a.

(** The stages named in the cases of [switch_AccessFlag]. *)
Definition inferable_stages : VkPipelineStageFlags :=
  Z.lor VK_PIPELINE_STAGE_DRAW_INDIRECT_BIT
 (Z.lor VK_PIPELINE_STAGE_VERTEX_INPUT_BIT
 (Z.lor ALL_GRAPHICS_SHADER_STAGES_BITS
 (Z.lor VK_PIPELINE_STAGE_COMPUTE_SHADER_BIT
 (Z.lor VK_PIPELINE_STAGE_EARLY_FRAGMENT_TESTS_BIT
 (Z.lor VK_PIPELINE_STAGE_LATE_FRAGMENT_TESTS_BIT
 (Z.lor VK_PIPELINE_STAGE_COLOR_ATTACHMENT_OUTPUT_BIT
 (Z.lor VK_PIPELINE_STAGE_TRANSFER_BIT
        VK_PIPELINE_STAGE_HOST_BIT))))))).

(** The two access flags that stand for accesses by any entity. *)
Definition memory_access_flags : VkAccessFlags :=
  Z.lor VK_ACCESS_MEMORY_READ_BIT VK_ACCESS_MEMORY_WRITE_BIT.

(** * Properties *)

(** ** 32-bit arithmetic *)

Lemma wrap32_uint32 z : uint32 z -> wrap32 z = z.
Proof. unfold uint32, wrap32. intros H. apply Z.mod_small. exact H. Qed.

Lemma land_wrap32_r a z : uint32 a -> Z.land a (wrap32 z) = Z.land a z.
Proof.
  intros Ha. unfold wrap32.
  rewrite <- (Z.land_ones z 32) by lia.
  rewrite (Z.land_comm z), Z.land_assoc, (Z.land_ones a 32) by lia.
  fold (wrap32 a). now rewrite wrap32_uint32.
Qed.

(** On a non-zero mask, [a & ~(a-1)] is [a & -a]. *)
Lemma pick_AccessFlag_opp a : uint32 a -> a <> 0 -> pick_AccessFlag a = Z.land a (- a).
Proof.
  intros Ha Hnz. unfold pick_AccessFlag, not32, sub32.
  rewrite (wrap32_uint32 (a - 1)) by (unfold uint32 in *; lia).
  rewrite land_wrap32_r by assumption.
  now rewrite Z.lnot_pred.
Qed.

Lemma land_opp_odd m : Z.land (2 * m + 1) (- (2 * m + 1)) = 1.
Proof.
  replace (- (2 * m + 1)) with (2 * Z.lnot m + 1) by (rewrite Z.lnot_eq_pred_opp; lia).
  apply Z.bits_inj'. intros n Hn.
  rewrite Z.land_spec.
  destruct (Z.eq_dec n 0) as [-> | Hne].
  - now rewrite !Z.testbit_odd_0.
  - replace n with (Z.succ (n - 1)) by lia.
    rewrite !Z.testbit_odd_succ by lia.
    rewrite Z.lnot_spec by lia.
    change 1 with (2 * 0 + 1). rewrite Z.testbit_odd_succ by lia.
    rewrite Z.bits_0. apply andb_negb_r.
Qed.

(** [a & -a] is the lowest set bit of [a]. *)
Lemma land_opp_lowest (k : nat) : forall a,
  low_clear (Z.of_nat k) a -> Z.testbit a (Z.of_nat k) = true ->
  Z.land a (- a) = 2 ^ Z.of_nat k.
Proof.
  induction k as [| k IH]; intros a Hlow Hbit.
  - change (Z.of_nat 0) with 0 in Hbit. rewrite Z.bit0_odd in Hbit.
    apply Z.odd_spec in Hbit. destruct Hbit as [m ->].
    apply land_opp_odd.
  - assert (Hev : Z.testbit a 0 = false) by (apply Hlow; lia).
    rewrite Z.bit0_odd in Hev.
    rewrite <- Z.negb_even in Hev. apply negb_false_iff in Hev.
    apply Z.even_spec in Hev. destruct Hev as [m ->].
    rewrite Nat2Z.inj_succ, Z.pow_succ_r by lia.
    rewrite <- (IH m).
    + assert (Hsh : forall x, 2 * x = Z.shiftl x 1)
        by (intro x; rewrite Z.shiftl_mul_pow2 by lia; lia).
      replace (- (2 * m)) with (2 * - m) by lia.
      rewrite !Hsh. symmetry. apply Z.shiftl_land.
    + intros i Hi. specialize (Hlow (Z.succ i) ltac:(lia)).
      now rewrite Z.testbit_even_succ in Hlow by lia.
    + rewrite Nat2Z.inj_succ, Z.testbit_even_succ in Hbit by lia. exact Hbit.
Qed.


(** ** Clearing a bit *)

Lemma uint32_testbit_high a i : uint32 a -> 32 <= i -> Z.testbit a i = false.
Proof.
  intros Ha Hi. rewrite <- (wrap32_uint32 a Ha). unfold wrap32.
  apply Z.mod_pow2_bits_high. lia.
Qed.

Lemma low_clear_32_zero a : uint32 a -> low_clear 32 a -> a = 0.
Proof.
  intros Ha Hlow. apply Z.bits_inj'. intros n Hn. rewrite Z.bits_0.
  destruct (Z_lt_le_dec n 32).
  - apply Hlow. lia.
  - now apply uint32_testbit_high.
Qed.

Lemma low_clear_succ k a :
  low_clear k a -> Z.testbit a k = false -> low_clear (k + 1) a.
Proof.
  intros Hlow Hk i Hi. destruct (Z.eq_dec i k) as [-> | Hne]; [exact Hk | apply Hlow; lia].
Qed.

Lemma land_not32_clearbit a k : uint32 a -> Z.land a (not32 (2 ^ k)) = Z.clearbit a k.
Proof.
  intros Ha. unfold not32. rewrite land_wrap32_r by assumption.
  now rewrite <- Z.ldiff_land, Z.clearbit_spec'.
Qed.

Lemma clearbit_uint32 a k : uint32 a -> uint32 (Z.clearbit a k).
Proof.
  unfold uint32. intros Ha.
  rewrite Z.clearbit_spec', Z.ldiff_land, <- Z.sub_land_same_l.
  assert (0 <= Z.land a (2 ^ k)) by (apply Z.land_nonneg; lia).
  assert (0 <= a - Z.land a (2 ^ k)).
  { rewrite Z.sub_land_same_l, <- Z.ldiff_land. apply Z.ldiff_nonneg. lia. }
  lia.
Qed.

Lemma clearbit_low_clear a k : 0 <= k -> low_clear k a -> low_clear (k + 1) (Z.clearbit a k).
Proof.
  intros Hk Hlow i Hi. rewrite Z.clearbit_eqb.
  destruct (Z.eqb_spec k i) as [-> | Hne].
  - apply andb_false_r.
  - rewrite (Hlow i) by lia. reflexivity.
Qed.

Lemma clearbit_testbit_above a k i : k < i -> Z.testbit (Z.clearbit a k) i = Z.testbit a i.
Proof. intros H. apply Z.clearbit_neq. lia. Qed.

Lemma scan_bits_clearbit n : forall j k a Stages,
  k < j -> scan_bits n j (Z.clearbit a k) Stages = scan_bits n j a Stages.
Proof.
  induction n as [| n IH]; intros j k a Stages Hlt; simpl; [reflexivity |].
  rewrite clearbit_testbit_above by assumption.
  destruct (Z.testbit a j).
  - destruct (switch_AccessFlag (2 ^ j) Stages); simpl; try reflexivity.
    apply IH. lia.
  - apply IH. lia.
Qed.

Lemma count_bits_clearbit_above n : forall j k a,
  k < j -> count_bits n j (Z.clearbit a k) = count_bits n j a.
Proof.
  induction n as [| n IH]; intros j k a Hlt; simpl; [reflexivity |].
  rewrite clearbit_testbit_above by assumption.
  rewrite IH by lia. reflexivity.
Qed.


Lemma count_bits_le n : forall j a, (count_bits n j a <= n)%nat.
Proof.
  induction n as [| n IH]; intros j a; simpl; [lia |].
  specialize (IH (j + 1) a). destruct (Z.testbit a j); lia.
Qed.

(** A property of the 32 bit positions follows from its 32 instances. *)
Lemma below_32_ind (P : Z -> Prop) :
  Forall P (map Z.of_nat (seq 0 32)) -> forall k, 0 <= k < 32 -> P k.
Proof.
  intros HP k Hk. rewrite Forall_forall in HP. apply HP.
  apply in_map_iff. exists (Z.to_nat k). split; [lia | apply in_seq; lia].
Qed.

(** The [VERIFY_EXPR] of the loop body holds of every single flag. *)
Lemma pow2_flag_checks : forall k, 0 <= k < 32 ->
  negb (2 ^ k =? 0) && (Z.land (2 ^ k) (sub32 (2 ^ k) 1) =? 0) = true.
Proof. apply below_32_ind. repeat constructor. Qed.


(** ** The loop as one pass over the bits *)

Lemma while_AccessFlags_0 fuel Stages : while_AccessFlags fuel 0 Stages = Returns Stages.
Proof. destruct fuel; reflexivity. Qed.

Lemma pick_AccessFlag_lowest k a :
  0 <= k -> uint32 a -> low_clear k a -> Z.testbit a k = true ->
  pick_AccessFlag a = 2 ^ k.
Proof.
  intros Hk Ha Hlow Hbit.
  rewrite pick_AccessFlag_opp; [| assumption | intros ->; now rewrite Z.bits_0 in Hbit].
  rewrite <- (Z2Nat.id k) in * by assumption.
  now apply land_opp_lowest.
Qed.

Lemma loop_body_lowest k a Stages :
  0 <= k < 32 -> uint32 a -> low_clear k a -> Z.testbit a k = true ->
  loop_body a Stages =
  obind (switch_AccessFlag (2 ^ k) Stages) (fun Stages' => Returns (Z.clearbit a k, Stages')).
Proof.
  intros Hk Ha Hlow Hbit. unfold loop_body.
  rewrite (pick_AccessFlag_lowest k) by (try assumption; lia).
  rewrite pow2_flag_checks by assumption. cbn [VERIFY_EXPR obind].
  now rewrite land_not32_clearbit.
Qed.

(** With the bits below [k] already cleared and a budget of at least the
    number of set bits left, the loop is the pass over the positions from [k]
    upwards. *)
Lemma while_scan n : forall fuel a Stages,
  (n <= 32)%nat -> uint32 a -> low_clear (32 - Z.of_nat n) a ->
  (count_bits n (32 - Z.of_nat n) a <= fuel)%nat ->
  while_AccessFlags fuel a Stages = scan_bits n (32 - Z.of_nat n) a Stages.
Proof.
  induction n as [| n IH]; intros fuel a Stages Hn Ha Hlow Hfuel.
  - change (32 - Z.of_nat 0) with 32 in Hlow.
    rewrite (low_clear_32_zero a Ha Hlow). apply while_AccessFlags_0.
  - set (k := 32 - Z.of_nat (S n)) in *.
    assert (Hk : 0 <= k < 32) by lia.
    assert (Hk1 : 32 - Z.of_nat n = k + 1) by lia.
    cbn [scan_bits count_bits] in *. rewrite Hk1 in IH.
    destruct (Z.testbit a k) eqn:Hbit.
    + destruct fuel as [| fuel]; [lia |].
      assert (Hnz : (a =? 0) = false).
      { apply Z.eqb_neq. intros ->. now rewrite Z.bits_0 in Hbit. }
      cbn [while_AccessFlags]. rewrite Hnz, (loop_body_lowest k) by assumption.
      destruct (switch_AccessFlag (2 ^ k) Stages) as [Stages' | msg |]; cbn [obind];
        try reflexivity.
      rewrite IH.
      * apply scan_bits_clearbit. lia.
      * lia.
      * now apply clearbit_uint32.
      * apply clearbit_low_clear; [lia | assumption].
      * rewrite count_bits_clearbit_above by lia. lia.
    + apply IH; try assumption; try lia.
      now apply low_clear_succ.
Qed.

Lemma low_clear_0 a : low_clear 0 a.
Proof. intros i Hi. lia. Qed.

Lemma while_AccessFlags_scan fuel a Stages :
  uint32 a -> (popcount a <= fuel)%nat ->
  while_AccessFlags fuel a Stages = scan_bits 32 0 a Stages.
Proof.
  intros Ha Hfuel. apply (while_scan 32); try assumption; try lia.
  apply low_clear_0.
Qed.

Lemma popcount_le_32 a : (popcount a <= 32)%nat.
Proof. apply count_bits_le. Qed.

Lemma PipelineStageFromAccessFlags_scan a :
  uint32 a -> PipelineStageFromAccessFlags a = scan_bits 32 0 a 0.
Proof.
  intros Ha. unfold PipelineStageFromAccessFlags.
  apply while_AccessFlags_scan; [assumption | apply popcount_le_32].
Qed.


(** ** Unions of access masks *)

(** What the switch does on the flag of bit [k]: it ors a fixed stage set
    into [Stages], or it reports an unknown flag. *)
Lemma switch_AccessFlag_pow2 : forall k, 0 <= k < 32 ->
  (exists c, forall Stages, switch_AccessFlag (2 ^ k) Stages = Returns (Z.lor Stages c)) \/
  (forall Stages, switch_AccessFlag (2 ^ k) Stages = Aborts Unknown_memory_access_flag).
Proof.
  apply below_32_ind.
  repeat (constructor;
          [ first [ left; eexists; intros Stages; cbn; reflexivity
                  | left; exists 0; intros Stages; cbn; now rewrite Z.lor_0_r
                  | right; intros Stages; reflexivity ] | ]).
  constructor.
Qed.

Lemma scan_bits_outcome n : forall k a Stages,
  0 <= k -> k + Z.of_nat n <= 32 ->
  (exists s, scan_bits n k a Stages = Returns s) \/
  scan_bits n k a Stages = Aborts Unknown_memory_access_flag.
Proof.
  induction n as [| n IH]; intros k a Stages Hk Hn; cbn [scan_bits].
  - left. now exists Stages.
  - destruct (Z.testbit a k).
    + destruct (switch_AccessFlag_pow2 k ltac:(lia)) as [[c Hc] | Hab].
      * rewrite Hc. cbn [obind]. apply IH; lia.
      * rewrite Hab. now right.
    + apply IH; lia.
Qed.

Lemma lor_lor_both x y c : Z.lor (Z.lor x y) c = Z.lor (Z.lor x c) (Z.lor y c).
Proof.
  apply Z.bits_inj'. intros i _. rewrite !Z.lor_spec.
  destruct (Z.testbit x i), (Z.testbit y i), (Z.testbit c i); reflexivity.
Qed.

Lemma lor_lor_left x y c : Z.lor (Z.lor x y) c = Z.lor (Z.lor x c) y.
Proof.
  apply Z.bits_inj'. intros i _. rewrite !Z.lor_spec.
  destruct (Z.testbit x i), (Z.testbit y i), (Z.testbit c i); reflexivity.
Qed.

(** The pass over a union, started on a union of stage masks, is the union
    of the two passes. *)
Lemma scan_bits_lor n : forall k A B SA SB,
  0 <= k -> k + Z.of_nat n <= 32 ->
  scan_bits n k (Z.lor A B) (Z.lor SA SB) =
  union_stages (scan_bits n k A SA) (scan_bits n k B SB).
Proof.
  induction n as [| n IH]; intros k A B SA SB Hk Hn; cbn [scan_bits].
  - reflexivity.
  - rewrite Z.lor_spec.
    assert (Hn' : k + 1 + Z.of_nat n <= 32) by lia.
    assert (Hk' : 0 <= k + 1) by lia.
    destruct (switch_AccessFlag_pow2 k ltac:(lia)) as [[c Hc] | Hab].
    + rewrite !Hc. cbn [obind].
      destruct (Z.testbit A k), (Z.testbit B k); cbn [orb].
      * rewrite lor_lor_both. now apply IH.
      * rewrite lor_lor_left. now apply IH.
      * rewrite <- Z.lor_assoc. now apply IH.
      * now apply IH.
    + rewrite !Hab.
      destruct (Z.testbit A k), (Z.testbit B k); cbn [orb obind]; try reflexivity.
      * unfold union_stages.
        destruct (scan_bits_outcome n (k + 1) A SA Hk' Hn') as [[s ->] | ->]; reflexivity.
      * now apply IH.
Qed.

Lemma lor_uint32 a b : uint32 a -> uint32 b -> uint32 (Z.lor a b).
Proof.
  intros Ha Hb.
  assert (E : Z.lor a b = wrap32 (Z.lor a b)).
  { unfold wrap32. rewrite <- Z.land_ones, Z.land_lor_distr_l, !Z.land_ones by lia.
    fold (wrap32 a) (wrap32 b). now rewrite !wrap32_uint32. }
  rewrite E. unfold wrap32, uint32. apply Z.mod_pos_bound. lia.
Qed.

Lemma PipelineStageFromAccessFlags_lor A B : uint32 A -> uint32 B ->
  PipelineStageFromAccessFlags (Z.lor A B) =
  union_stages (PipelineStageFromAccessFlags A) (PipelineStageFromAccessFlags B).
Proof.
  intros HA HB.
  rewrite !PipelineStageFromAccessFlags_scan by (try apply lor_uint32; assumption).
  change 0 with (Z.lor 0 0) at 2.
  apply scan_bits_lor; simpl; lia.
Qed.

(** ** The lowest set bit *)

Lemma first_set_bit_spec n : forall a,
  (n <= 32)%nat -> uint32 a -> a <> 0 -> low_clear (32 - Z.of_nat n) a ->
  let k := first_set_bit n (32 - Z.of_nat n) a in
  0 <= k < 32 /\ Z.testbit a k = true /\ low_clear k a.
Proof.
  induction n as [| n IH]; intros a Hn Ha Hnz Hlow.
  - exfalso. apply Hnz. now apply low_clear_32_zero.
  - cbn [first_set_bit].
    destruct (Z.testbit a (32 - Z.of_nat (S n))) eqn:Hbit.
    + cbv zeta. repeat split; try assumption; lia.
    + replace (32 - Z.of_nat (S n) + 1) with (32 - Z.of_nat n) by lia.
      apply IH; try assumption; try lia.
      replace (32 - Z.of_nat n) with (32 - Z.of_nat (S n) + 1) by lia.
      now apply low_clear_succ.
Qed.

Lemma lowest_set_bit_spec a : uint32 a -> a <> 0 ->
  0 <= lowest_set_bit a < 32 /\
  Z.testbit a (lowest_set_bit a) = true /\
  low_clear (lowest_set_bit a) a.
Proof.
  intros Ha Hnz. apply (first_set_bit_spec 32 a); try assumption; try lia.
  apply low_clear_0.
Qed.



(** ** Known and unknown access bits *)

(** The seventeen access flags occupy bits 0 to 16. *)
Lemma switch_AccessFlag_known : forall k, 0 <= k < 32 -> k < 17 ->
  exists c, forall Stages, switch_AccessFlag (2 ^ k) Stages = Returns (Z.lor Stages c).
Proof.
  apply (below_32_ind (fun k => k < 17 -> exists c, forall Stages,
                           switch_AccessFlag (2 ^ k) Stages = Returns (Z.lor Stages c))).
  repeat (constructor;
          [ first [ intros H; exfalso; revert H; apply Z.le_ngt; discriminate
                  | intros _; eexists; intros Stages; cbn; reflexivity
                  | intros _; exists 0; intros Stages; cbn; now rewrite Z.lor_0_r ] | ]).
  constructor.
Qed.

Lemma switch_AccessFlag_unknown : forall k, 0 <= k < 32 -> 17 <= k ->
  forall Stages, switch_AccessFlag (2 ^ k) Stages = Aborts Unknown_memory_access_flag.
Proof.
  apply (below_32_ind (fun k => 17 <= k -> forall Stages,
                           switch_AccessFlag (2 ^ k) Stages = Aborts Unknown_memory_access_flag)).
  repeat (constructor;
          [ first [ intros H; exfalso; revert H; apply Z.lt_nge; reflexivity
                  | intros _ Stages; reflexivity ] | ]).
  constructor.
Qed.

Lemma scan_bits_known n : forall k a Stages,
  0 <= k -> k + Z.of_nat n <= 32 ->
  (forall i, 17 <= i -> Z.testbit a i = false) ->
  exists s, scan_bits n k a Stages = Returns s.
Proof.
  induction n as [| n IH]; intros k a Stages Hk Hn Hhigh; cbn [scan_bits].
  - now exists Stages.
  - destruct (Z.testbit a k) eqn:Hbit.
    + assert (Hlt : k < 17).
      { destruct (Z_lt_le_dec k 17) as [| Hge]; [assumption |].
        rewrite (Hhigh k Hge) in Hbit. discriminate. }
      destruct (switch_AccessFlag_known k ltac:(lia) Hlt) as [c Hc].
      rewrite Hc. cbn [obind]. apply IH; try assumption; lia.
    + apply IH; try assumption; lia.
Qed.

Lemma scan_bits_unknown n : forall k a Stages i,
  0 <= k -> k + Z.of_nat n = 32 -> k <= i < 32 -> 17 <= i -> Z.testbit a i = true ->
  scan_bits n k a Stages = Aborts Unknown_memory_access_flag.
Proof.
  induction n as [| n IH]; intros k a Stages i Hk Hn Hi H17 Hbit; [simpl in Hn; lia |].
  cbn [scan_bits].
  destruct (Z.eq_dec k i) as [-> | Hne].
  - rewrite Hbit, switch_AccessFlag_unknown by lia. reflexivity.
  - destruct (Z.testbit a k).
    + destruct (switch_AccessFlag_pow2 k ltac:(lia)) as [[c Hc] | Hab].
      * rewrite Hc. cbn [obind]. apply (IH _ _ _ i); try assumption; lia.
      * now rewrite Hab.
    + apply (IH _ _ _ i); try assumption; lia.
Qed.

Lemma testbit_high_small a n i : 0 <= a < 2 ^ n -> 0 <= n <= i -> Z.testbit a i = false.
Proof.
  intros Ha Hi. rewrite <- (Z.mod_small a (2 ^ n)) by assumption.
  apply Z.mod_pow2_bits_high. lia.
Qed.

(** A mask made of known access flags always gets a stage mask. *)
Lemma PipelineStageFromAccessFlags_known a :
  0 <= a < 2 ^ 17 -> exists s, PipelineStageFromAccessFlags a = Returns s.
Proof.
  intros Ha.
  rewrite PipelineStageFromAccessFlags_scan by (unfold uint32; lia).
  apply scan_bits_known; try (simpl; lia).
  intros i Hi. apply (testbit_high_small a 17); lia.
Qed.

(** A mask with a bit that is no access flag stops the call. *)
Lemma PipelineStageFromAccessFlags_unknown a i :
  uint32 a -> 17 <= i -> Z.testbit a i = true ->
  PipelineStageFromAccessFlags a = Aborts Unknown_memory_access_flag.
Proof.
  intros Ha Hi Hbit.
  rewrite PipelineStageFromAccessFlags_scan by assumption.
  apply (scan_bits_unknown 32 0 a 0 i); try assumption; try (simpl; lia).
  destruct (Z_lt_le_dec i 32) as [| Hge]; [lia |].
  rewrite (uint32_testbit_high a i Ha Hge) in Hbit. discriminate.
Qed.

(** ** Claims about [PipelineStageFromAccessFlags] *)

(** C2: on each of the seventeen single access flags the function returns
    the stage set of the table: indirect-command read gives draw-indirect;
    index read and vertex-attribute read give vertex-input; uniform read,
    shader read and shader write give the five graphics shader stages
    (vertex, tessellation control, tessellation evaluation, geometry and
    fragment) together with the compute shader stage; input-attachment read gives the fragment
    shader; colour-attachment read and write give colour-attachment-output;
    depth/stencil-attachment read and write give the early and late fragment
    tests; transfer read and write give transfer; host read and write give
    host; memory read and memory write give no stage. *)
Theorem PipelineStageFromAccessFlags_single_flag :
  PipelineStageFromAccessFlags VK_ACCESS_INDIRECT_COMMAND_READ_BIT
    = Returns VK_PIPELINE_STAGE_DRAW_INDIRECT_BIT /\
  PipelineStageFromAccessFlags VK_ACCESS_INDEX_READ_BIT
    = Returns VK_PIPELINE_STAGE_VERTEX_INPUT_BIT /\
  PipelineStageFromAccessFlags VK_ACCESS_VERTEX_ATTRIBUTE_READ_BIT
    = Returns VK_PIPELINE_STAGE_VERTEX_INPUT_BIT /\
  PipelineStageFromAccessFlags VK_ACCESS_UNIFORM_READ_BIT
    = Returns (Z.lor VK_PIPELINE_STAGE_VERTEX_SHADER_BIT
              (Z.lor VK_PIPELINE_STAGE_TESSELLATION_CONTROL_SHADER_BIT
              (Z.lor VK_PIPELINE_STAGE_TESSELLATION_EVALUATION_SHADER_BIT
              (Z.lor VK_PIPELINE_STAGE_GEOMETRY_SHADER_BIT
              (Z.lor VK_PIPELINE_STAGE_FRAGMENT_SHADER_BIT
                     VK_PIPELINE_STAGE_COMPUTE_SHADER_BIT))))) /\
  PipelineStageFromAccessFlags VK_ACCESS_SHADER_READ_BIT
    = Returns (Z.lor VK_PIPELINE_STAGE_VERTEX_SHADER_BIT
              (Z.lor VK_PIPELINE_STAGE_TESSELLATION_CONTROL_SHADER_BIT
              (Z.lor VK_PIPELINE_STAGE_TESSELLATION_EVALUATION_SHADER_BIT
              (Z.lor VK_PIPELINE_STAGE_GEOMETRY_SHADER_BIT
              (Z.lor VK_PIPELINE_STAGE_FRAGMENT_SHADER_BIT
                     VK_PIPELINE_STAGE_COMPUTE_SHADER_BIT))))) /\
  PipelineStageFromAccessFlags VK_ACCESS_SHADER_WRITE_BIT
    = Returns (Z.lor VK_PIPELINE_STAGE_VERTEX_SHADER_BIT
              (Z.lor VK_PIPELINE_STAGE_TESSELLATION_CONTROL_SHADER_BIT
              (Z.lor VK_PIPELINE_STAGE_TESSELLATION_EVALUATION_SHADER_BIT
              (Z.lor VK_PIPELINE_STAGE_GEOMETRY_SHADER_BIT
              (Z.lor VK_PIPELINE_STAGE_FRAGMENT_SHADER_BIT
                     VK_PIPELINE_STAGE_COMPUTE_SHADER_BIT))))) /\
  PipelineStageFromAccessFlags VK_ACCESS_INPUT_ATTACHMENT_READ_BIT
    = Returns VK_PIPELINE_STAGE_FRAGMENT_SHADER_BIT /\
  PipelineStageFromAccessFlags VK_ACCESS_COLOR_ATTACHMENT_READ_BIT
    = Returns VK_PIPELINE_STAGE_COLOR_ATTACHMENT_OUTPUT_BIT /\
  PipelineStageFromAccessFlags VK_ACCESS_COLOR_ATTACHMENT_WRITE_BIT
    = Returns VK_PIPELINE_STAGE_COLOR_ATTACHMENT_OUTPUT_BIT /\
  PipelineStageFromAccessFlags VK_ACCESS_DEPTH_STENCIL_ATTACHMENT_READ_BIT
    = Returns (Z.lor VK_PIPELINE_STAGE_EARLY_FRAGMENT_TESTS_BIT
                     VK_PIPELINE_STAGE_LATE_FRAGMENT_TESTS_BIT) /\
  PipelineStageFromAccessFlags VK_ACCESS_DEPTH_STENCIL_ATTACHMENT_WRITE_BIT
    = Returns (Z.lor VK_PIPELINE_STAGE_EARLY_FRAGMENT_TESTS_BIT
                     VK_PIPELINE_STAGE_LATE_FRAGMENT_TESTS_BIT) /\
  PipelineStageFromAccessFlags VK_ACCESS_TRANSFER_READ_BIT
    = Returns VK_PIPELINE_STAGE_TRANSFER_BIT /\
  PipelineStageFromAccessFlags VK_ACCESS_TRANSFER_WRITE_BIT
    = Returns VK_PIPELINE_STAGE_TRANSFER_BIT /\
  PipelineStageFromAccessFlags VK_ACCESS_HOST_READ_BIT
    = Returns VK_PIPELINE_STAGE_HOST_BIT /\
  PipelineStageFromAccessFlags VK_ACCESS_HOST_WRITE_BIT
    = Returns VK_PIPELINE_STAGE_HOST_BIT /\
  PipelineStageFromAccessFlags VK_ACCESS_MEMORY_READ_BIT = Returns 0 /\
  PipelineStageFromAccessFlags VK_ACCESS_MEMORY_WRITE_BIT = Returns 0.
Proof. repeat split; vm_compute; reflexivity. Qed.

(** C3: the function maps the union of two access masks to the union of
    their stage masks, and the empty access mask to the empty stage mask.
    The union of two outcomes is that of [union_stages]: a mask with a bit
    outside the seventeen known flags stops the call, alone or in a union. *)
Theorem PipelineStageFromAccessFlags_union :
  PipelineStageFromAccessFlags 0 = Returns 0 /\
  forall A B : VkAccessFlags, uint32 A -> uint32 B ->
    PipelineStageFromAccessFlags (Z.lor A B) =
    union_stages (PipelineStageFromAccessFlags A) (PipelineStageFromAccessFlags B).
Proof.
  split; [reflexivity |].
  intros A B HA HB. now apply PipelineStageFromAccessFlags_lor.
Qed.

Lemma PipelineStageFromAccessFlags_union_witness :
  uint32 (Z.lor VK_ACCESS_SHADER_READ_BIT VK_ACCESS_INDEX_READ_BIT) /\
  uint32 VK_ACCESS_TRANSFER_WRITE_BIT /\
  PipelineStageFromAccessFlags
    (Z.lor (Z.lor VK_ACCESS_SHADER_READ_BIT VK_ACCESS_INDEX_READ_BIT)
           VK_ACCESS_TRANSFER_WRITE_BIT) =
  union_stages
    (PipelineStageFromAccessFlags (Z.lor VK_ACCESS_SHADER_READ_BIT VK_ACCESS_INDEX_READ_BIT))
    (PipelineStageFromAccessFlags VK_ACCESS_TRANSFER_WRITE_BIT).
Proof.
  assert (H1 : uint32 (Z.lor VK_ACCESS_SHADER_READ_BIT VK_ACCESS_INDEX_READ_BIT))
    by (vm_compute; split; [discriminate | reflexivity]).
  assert (H2 : uint32 VK_ACCESS_TRANSFER_WRITE_BIT)
    by (vm_compute; split; [discriminate | reflexivity]).
  split; [exact H1 | split; [exact H2 |]].
  exact (proj2 PipelineStageFromAccessFlags_union _ _ H1 H2).
Defined.



(** ** The two layout switches *)

(** [switch_OldLayout] assigns at most [srcAccessMask]. *)
Lemma switch_OldLayout_frame OldLayout b b' :
  switch_OldLayout OldLayout b = Returns b' ->
  b' = set_srcAccessMask (srcAccessMask b') b.
Proof.
  unfold switch_OldLayout, UNEXPECTED.
  repeat match goal with
         | |- context [if ?c then _ else _] => destruct c
         end;
    intros H; try discriminate H; injection H as <-; destruct b; reflexivity.
Qed.

(** [switch_NewLayout] assigns at most the two access masks. *)
Lemma switch_NewLayout_frame NewLayout b b' :
  switch_NewLayout NewLayout b = Returns b' ->
  b' = set_srcAccessMask (srcAccessMask b') (set_dstAccessMask (dstAccessMask b') b).
Proof.
  unfold switch_NewLayout, UNEXPECTED.
  repeat match goal with
         | |- context [if ?c then _ else _] => destruct c
         end;
    intros H; try discriminate H; injection H as <-; destruct b; reflexivity.
Qed.

Lemma layout_switches_frame Image AspectMask OldLayout NewLayout SubresRange b :
  layout_switches Image AspectMask OldLayout NewLayout SubresRange = Returns b ->
  b = mkVkImageMemoryBarrier VK_STRUCTURE_TYPE_IMAGE_MEMORY_BARRIER 0
        (srcAccessMask b) (dstAccessMask b) OldLayout NewLayout
        VK_QUEUE_FAMILY_IGNORED VK_QUEUE_FAMILY_IGNORED Image SubresRange.
Proof.
  unfold layout_switches.
  destruct (switch_OldLayout OldLayout _) as [b1 | |] eqn:H1; cbn [obind]; try discriminate.
  intros H2.
  apply switch_OldLayout_frame in H1. apply switch_NewLayout_frame in H2.
  rewrite H2, H1. reflexivity.
Qed.

Lemma layout_switches_supported Image AspectMask OldLayout NewLayout SubresRange :
  In OldLayout supported_OldLayouts -> In NewLayout supported_NewLayouts ->
  exists b s d,
    layout_switches Image AspectMask OldLayout NewLayout SubresRange = Returns b /\
    PipelineStageFromAccessFlags (srcAccessMask b) = Returns s /\
    PipelineStageFromAccessFlags (dstAccessMask b) = Returns d.
Proof.
  intros HO HN.
  cbv [supported_OldLayouts supported_NewLayouts In] in HO, HN.
  repeat (destruct HO as [<- | HO]); try contradiction;
    repeat (destruct HN as [<- | HN]); try contradiction;
    (eexists; eexists; eexists; split; [vm_compute; reflexivity |]);
    split; vm_compute; reflexivity.
Qed.

(** ** Running [TransitionImageLayout] *)

(** The command a successful call records. *)
Lemma TransitionImageLayout_success CmdBuffer Image AspectMask OldLayout NewLayout
    SubresRange SrcStages DestStages st b s d :
  CmdBuffer <> VK_NULL_HANDLE ->
  layout_switches Image AspectMask OldLayout NewLayout SubresRange = Returns b ->
  (if SrcStages =? 0 then PipelineStageFromAccessFlags (srcAccessMask b)
   else Returns SrcStages) = Returns s ->
  (if DestStages =? 0 then PipelineStageFromAccessFlags (dstAccessMask b)
   else Returns DestStages) = Returns d ->
  TransitionImageLayout CmdBuffer Image AspectMask OldLayout NewLayout SubresRange
    SrcStages DestStages st =
  (Returns tt,
   mkState (recorded st ++ [mkPipelineBarrierCmd CmdBuffer s d 0 0 [] 0 [] 1 [b]])
           (stage_queries st
              ++ (if SrcStages =? 0 then [srcAccessMask b] else [])
              ++ (if DestStages =? 0 then [dstAccessMask b] else []))).
Proof.
  intros HC Hb Hs Hd.
  unfold TransitionImageLayout, bind, pure, ret, VERIFY_EXPR.
  apply Z.eqb_neq in HC. rewrite HC. cbn [negb].
  unfold layout_switches in Hb.
  destruct (switch_OldLayout OldLayout _) as [b1 | |]; cbn [obind] in Hb; try discriminate.
  rewrite Hb.
  unfold call_PipelineStageFromAccessFlags, vkCmdPipelineBarrier.
  destruct (SrcStages =? 0), (DestStages =? 0); cbn [recorded stage_queries];
    try rewrite Hs; try rewrite Hd; try (injection Hs as <-); try (injection Hd as <-);
    cbn [recorded stage_queries app]; rewrite <- ?app_assoc, ?app_nil_r; reflexivity.
Qed.

(** Conversely, a call that returns went through every step. *)
Lemma TransitionImageLayout_returns_inv CmdBuffer Image AspectMask OldLayout NewLayout
    SubresRange SrcStages DestStages st r st' :
  TransitionImageLayout CmdBuffer Image AspectMask OldLayout NewLayout SubresRange
    SrcStages DestStages st = (Returns r, st') ->
  exists b s d,
    CmdBuffer <> VK_NULL_HANDLE /\
    layout_switches Image AspectMask OldLayout NewLayout SubresRange = Returns b /\
    (if SrcStages =? 0 then PipelineStageFromAccessFlags (srcAccessMask b)
     else Returns SrcStages) = Returns s /\
    (if DestStages =? 0 then PipelineStageFromAccessFlags (dstAccessMask b)
     else Returns DestStages) = Returns d.
Proof.
  unfold TransitionImageLayout, bind, pure, ret, VERIFY_EXPR, layout_switches.
  destruct (Z.eqb_spec CmdBuffer VK_NULL_HANDLE) as [| HC]; cbn [negb]; [discriminate |].
  destruct (switch_OldLayout OldLayout _) as [b1 | |]; cbn [obind]; try discriminate.
  destruct (switch_NewLayout NewLayout b1) as [b | |]; try discriminate.
  unfold call_PipelineStageFromAccessFlags.
  destruct (SrcStages =? 0).
  - destruct (PipelineStageFromAccessFlags (srcAccessMask b)) as [s | |] eqn:Hs;
      try discriminate.
    destruct (DestStages =? 0).
    + destruct (PipelineStageFromAccessFlags (dstAccessMask b)) as [d | |] eqn:Hd;
        try discriminate.
      intros _. exists b, s, d. auto.
    + intros _. exists b, s, DestStages. auto.
  - destruct (DestStages =? 0).
    + destruct (PipelineStageFromAccessFlags (dstAccessMask b)) as [d | |] eqn:Hd;
        try discriminate.
      intros _. exists b, SrcStages, d. auto.
    + intros _. exists b, SrcStages, DestStages. auto.
Qed.

(** With both stage masks supplied, no call ever queries
    [PipelineStageFromAccessFlags], whether it returns or not. *)
Lemma TransitionImageLayout_no_query CmdBuffer Image AspectMask OldLayout NewLayout
    SubresRange SrcStages DestStages st :
  SrcStages <> 0 -> DestStages <> 0 ->
  stage_queries (snd (TransitionImageLayout CmdBuffer Image AspectMask OldLayout NewLayout
                        SubresRange SrcStages DestStages st)) = stage_queries st.
Proof.
  intros HS HD. apply Z.eqb_neq in HS, HD.
  unfold TransitionImageLayout, bind, pure, ret, VERIFY_EXPR.
  rewrite HS, HD.
  destruct (CmdBuffer =? VK_NULL_HANDLE); cbn [negb]; [reflexivity |].
  destruct (switch_OldLayout OldLayout _) as [b1 | |]; try reflexivity.
  destruct (switch_NewLayout NewLayout b1) as [b | |]; reflexivity.
Qed.

(** A call that stops at a contract violation leaves the state as it was,
    whenever the violation is raised before the stage inference. *)
Lemma TransitionImageLayout_switch_aborts CmdBuffer Image AspectMask OldLayout NewLayout
    SubresRange SrcStages DestStages st msg :
  layout_switches Image AspectMask OldLayout NewLayout SubresRange = Aborts msg ->
  exists msg', TransitionImageLayout CmdBuffer Image AspectMask OldLayout NewLayout
                 SubresRange SrcStages DestStages st = (Aborts msg', st).
Proof.
  unfold TransitionImageLayout, bind, pure, ret, VERIFY_EXPR, layout_switches.
  destruct (CmdBuffer =? VK_NULL_HANDLE); cbn [negb]; [intros _; eexists; reflexivity |].
  destruct (switch_OldLayout OldLayout _) as [b1 | m |]; cbn [obind]; try discriminate.
  - intros ->. eexists; reflexivity.
  - intros _. eexists; reflexivity.
Qed.

Lemma switch_OldLayout_not_OutOfFuel OldLayout b : switch_OldLayout OldLayout b <> OutOfFuel.
Proof.
  unfold switch_OldLayout, UNEXPECTED.
  repeat match goal with
         | |- context [if ?c then _ else _] => destruct c
         end; discriminate.
Qed.

(** The source access mask survives the second switch on every new layout
    but [VK_IMAGE_LAYOUT_DEPTH_STENCIL_READ_ONLY_OPTIMAL]. *)
Lemma switch_NewLayout_srcAccessMask NewLayout b b' :
  NewLayout <> VK_IMAGE_LAYOUT_DEPTH_STENCIL_READ_ONLY_OPTIMAL ->
  switch_NewLayout NewLayout b = Returns b' ->
  srcAccessMask b' = srcAccessMask b.
Proof.
  intros HN. unfold switch_NewLayout, UNEXPECTED.
  repeat match goal with
         | |- context [if ?c =? ?v then _ else _] => destruct (Z.eqb_spec c v)
         end;
    intros H; try discriminate H; try contradiction; injection H as <-; reflexivity.
Qed.

(** On one old layout, the first switch leaves the same source access mask
    in any two barriers that agreed on it. *)
Lemma switch_OldLayout_srcAccessMask OldLayout b1 b2 b1' b2' :
  srcAccessMask b1 = srcAccessMask b2 ->
  switch_OldLayout OldLayout b1 = Returns b1' ->
  switch_OldLayout OldLayout b2 = Returns b2' ->
  srcAccessMask b1' = srcAccessMask b2'.
Proof.
  intros Hs. unfold switch_OldLayout, UNEXPECTED.
  repeat match goal with
         | |- context [if ?c then _ else _] => destruct c
         end;
    intros H H'; try discriminate H; injection H as <-; injection H' as <-;
    try reflexivity; exact Hs.
Qed.

(** Away from [VK_IMAGE_LAYOUT_DEPTH_STENCIL_READ_ONLY_OPTIMAL] as new layout,
    the source access mask is the one the first switch assigns to the old
    layout. *)
Lemma layout_switches_srcAccessMask Image AspectMask SubresRange Image' AspectMask'
    SubresRange' OldLayout NewLayout NewLayout' b b' :
  NewLayout <> VK_IMAGE_LAYOUT_DEPTH_STENCIL_READ_ONLY_OPTIMAL ->
  NewLayout' <> VK_IMAGE_LAYOUT_DEPTH_STENCIL_READ_ONLY_OPTIMAL ->
  layout_switches Image AspectMask OldLayout NewLayout SubresRange = Returns b ->
  layout_switches Image' AspectMask' OldLayout NewLayout' SubresRange' = Returns b' ->
  srcAccessMask b = srcAccessMask b'.
Proof.
  intros HN HN'. unfold layout_switches.
  destruct (switch_OldLayout OldLayout (init_ImgBarrier Image _ _ _ _))
    as [b1 | |] eqn:H1; cbn [obind]; try discriminate.
  destruct (switch_OldLayout OldLayout (init_ImgBarrier Image' _ _ _ _))
    as [b1' | |] eqn:H1'; cbn [obind]; try discriminate.
  intros H2 H2'.
  rewrite (switch_NewLayout_srcAccessMask _ _ _ HN H2).
  rewrite (switch_NewLayout_srcAccessMask _ _ _ HN' H2').
  eapply switch_OldLayout_srcAccessMask; [| exact H1 | exact H1']. reflexivity.
Qed.

(** The destination access mask is the one the second switch assigns to
    the new layout, whatever the old layout. *)
Lemma layout_switches_dstAccessMask Image AspectMask SubresRange Image' AspectMask'
    SubresRange' OldLayout OldLayout' NewLayout b b' :
  layout_switches Image AspectMask OldLayout NewLayout SubresRange = Returns b ->
  layout_switches Image' AspectMask' OldLayout' NewLayout SubresRange' = Returns b' ->
  dstAccessMask b = dstAccessMask b'.
Proof.
  unfold layout_switches.
  destruct (switch_OldLayout OldLayout _) as [b1 | |] eqn:H1; cbn [obind]; try discriminate.
  destruct (switch_OldLayout OldLayout' _) as [b1' | |] eqn:H1'; cbn [obind]; try discriminate.
  apply switch_OldLayout_frame in H1, H1'.
  assert (Hd : dstAccessMask b1 = dstAccessMask b1') by (rewrite H1, H1'; reflexivity).
  revert Hd. generalize b1 b1'. clear. intros b1 b1' Hd.
  unfold switch_NewLayout, UNEXPECTED.
  repeat match goal with
         | |- context [if ?c then _ else _] => destruct c
         end;
    intros H H'; try discriminate H; injection H as <-; injection H' as <-;
    try reflexivity; exact Hd.
Qed.

(** ** Claims about [TransitionImageLayout] and [FlushBarriers] *)

(** C1: the claim is that the source access mask of the recorded barrier
    depends on the old layout alone and the destination access mask on the
    new layout alone.  The code does not do that when the new layout is
    depth-stencil-read-only: from depth-stencil-attachment as old layout the
    recorded source access mask is depth/stencil-attachment read and the
    destination access mask is empty, whereas the same old layout with
    shader-read-only as new layout gives depth/stencil-attachment write as
    source access mask. *)
Theorem TransitionImageLayout_DEPTH_STENCIL_READ_ONLY_overwrites_srcAccessMask :
  let SubresRange := mkVkImageSubresourceRange 6 0 1 0 1 in
  let barrier src dst NewLayout :=
    mkVkImageMemoryBarrier VK_STRUCTURE_TYPE_IMAGE_MEMORY_BARRIER 0 src dst
      VK_IMAGE_LAYOUT_DEPTH_STENCIL_ATTACHMENT_OPTIMAL NewLayout
      VK_QUEUE_FAMILY_IGNORED VK_QUEUE_FAMILY_IGNORED 1 SubresRange in
  TransitionImageLayout 1 1 6 VK_IMAGE_LAYOUT_DEPTH_STENCIL_ATTACHMENT_OPTIMAL
    VK_IMAGE_LAYOUT_DEPTH_STENCIL_READ_ONLY_OPTIMAL SubresRange 0 0 (mkState [] []) =
  (Returns tt,
   mkState [mkPipelineBarrierCmd 1
              (Z.lor VK_PIPELINE_STAGE_EARLY_FRAGMENT_TESTS_BIT
                     VK_PIPELINE_STAGE_LATE_FRAGMENT_TESTS_BIT)
              0 0 0 [] 0 [] 1
              [barrier VK_ACCESS_DEPTH_STENCIL_ATTACHMENT_READ_BIT 0
                 VK_IMAGE_LAYOUT_DEPTH_STENCIL_READ_ONLY_OPTIMAL]]
           [VK_ACCESS_DEPTH_STENCIL_ATTACHMENT_READ_BIT; 0]) /\
  TransitionImageLayout 1 1 6 VK_IMAGE_LAYOUT_DEPTH_STENCIL_ATTACHMENT_OPTIMAL
    VK_IMAGE_LAYOUT_SHADER_READ_ONLY_OPTIMAL SubresRange 0 0 (mkState [] []) =
  (Returns tt,
   mkState [mkPipelineBarrierCmd 1
              (Z.lor VK_PIPELINE_STAGE_EARLY_FRAGMENT_TESTS_BIT
                     VK_PIPELINE_STAGE_LATE_FRAGMENT_TESTS_BIT)
              (Z.lor ALL_GRAPHICS_SHADER_STAGES_BITS VK_PIPELINE_STAGE_COMPUTE_SHADER_BIT)
              0 0 [] 0 [] 1
              [barrier VK_ACCESS_DEPTH_STENCIL_ATTACHMENT_WRITE_BIT
                 (Z.lor VK_ACCESS_SHADER_READ_BIT VK_ACCESS_INPUT_ATTACHMENT_READ_BIT)
                 VK_IMAGE_LAYOUT_SHADER_READ_ONLY_OPTIMAL]]
           [VK_ACCESS_DEPTH_STENCIL_ATTACHMENT_WRITE_BIT;
            Z.lor VK_ACCESS_SHADER_READ_BIT VK_ACCESS_INPUT_ATTACHMENT_READ_BIT]).
Proof. split; vm_compute; reflexivity. Qed.

(** On supported layouts and a non-null command buffer the call returns. *)
Lemma TransitionImageLayout_returns CmdBuffer Image AspectMask OldLayout NewLayout
    SubresRange SrcStages DestStages st :
  CmdBuffer <> VK_NULL_HANDLE ->
  In OldLayout supported_OldLayouts -> In NewLayout supported_NewLayouts ->
  exists st',
    TransitionImageLayout CmdBuffer Image AspectMask OldLayout NewLayout SubresRange
      SrcStages DestStages st = (Returns tt, st').
Proof.
  intros HC HO HN.
  destruct (layout_switches_supported Image AspectMask OldLayout NewLayout SubresRange HO HN)
    as (b & s0 & d0 & Hb & Hs0 & Hd0).
  eexists.
  apply (TransitionImageLayout_success _ _ _ _ _ _ _ _ st b
           (if SrcStages =? 0 then s0 else SrcStages)
           (if DestStages =? 0 then d0 else DestStages)); try assumption.
  - now destruct (SrcStages =? 0).
  - now destruct (DestStages =? 0).
Qed.

(** C4: when both stage masks are supplied non-zero, a call makes no query
    to [PipelineStageFromAccessFlags], and the command it records carries
    the two supplied masks; a stage mask supplied as zero is replaced by
    what [PipelineStageFromAccessFlags] returns on the corresponding access
    mask of the barrier as the two layout switches left it.  The call does
    return on a non-null command buffer and supported layouts. *)
Theorem TransitionImageLayout_stage_hints CmdBuffer Image AspectMask OldLayout NewLayout
    SubresRange SrcStages DestStages st :
  (SrcStages <> 0 -> DestStages <> 0 ->
   stage_queries (snd (TransitionImageLayout CmdBuffer Image AspectMask OldLayout NewLayout
                         SubresRange SrcStages DestStages st)) = stage_queries st) /\
  (forall r st',
     TransitionImageLayout CmdBuffer Image AspectMask OldLayout NewLayout SubresRange
       SrcStages DestStages st = (Returns r, st') ->
     exists b s d,
       layout_switches Image AspectMask OldLayout NewLayout SubresRange = Returns b /\
       (SrcStages <> 0 -> s = SrcStages) /\
       (SrcStages = 0 -> PipelineStageFromAccessFlags (srcAccessMask b) = Returns s) /\
       (DestStages <> 0 -> d = DestStages) /\
       (DestStages = 0 -> PipelineStageFromAccessFlags (dstAccessMask b) = Returns d) /\
       st' = mkState (recorded st ++ [mkPipelineBarrierCmd CmdBuffer s d 0 0 [] 0 [] 1 [b]])
                     (stage_queries st
                        ++ (if SrcStages =? 0 then [srcAccessMask b] else [])
                        ++ (if DestStages =? 0 then [dstAccessMask b] else []))) /\
  (CmdBuffer <> VK_NULL_HANDLE ->
   In OldLayout supported_OldLayouts -> In NewLayout supported_NewLayouts ->
   exists st',
     TransitionImageLayout CmdBuffer Image AspectMask OldLayout NewLayout SubresRange
       SrcStages DestStages st = (Returns tt, st')).
Proof.
  split; [apply TransitionImageLayout_no_query |].
  split; [| apply TransitionImageLayout_returns].
  intros r st' Hrun.
  destruct (TransitionImageLayout_returns_inv _ _ _ _ _ _ _ _ _ _ _ Hrun)
    as (b & s & d & HC & Hb & Hs & Hd).
  rewrite (TransitionImageLayout_success _ _ _ _ _ _ _ _ st b s d HC Hb Hs Hd) in Hrun.
  injection Hrun as _ <-.
  exists b, s, d.
  split; [exact Hb |].
  destruct (Z.eqb_spec SrcStages 0) as [HS | HS];
    destruct (Z.eqb_spec DestStages 0) as [HD | HD];
    repeat split; intros; try contradiction; try assumption; congruence.
Qed.

Lemma TransitionImageLayout_stage_hints_witness :
  let SubresRange := mkVkImageSubresourceRange 1 0 1 0 1 in
  let st := mkState [] [] in
  let run :=
    TransitionImageLayout 1 1 1 VK_IMAGE_LAYOUT_UNDEFINED
      VK_IMAGE_LAYOUT_COLOR_ATTACHMENT_OPTIMAL SubresRange
      VK_PIPELINE_STAGE_TOP_OF_PIPE_BIT VK_PIPELINE_STAGE_COLOR_ATTACHMENT_OUTPUT_BIT st in
  VK_PIPELINE_STAGE_TOP_OF_PIPE_BIT <> 0 /\
  VK_PIPELINE_STAGE_COLOR_ATTACHMENT_OUTPUT_BIT <> 0 /\
  1 <> VK_NULL_HANDLE /\
  In VK_IMAGE_LAYOUT_UNDEFINED supported_OldLayouts /\
  In VK_IMAGE_LAYOUT_COLOR_ATTACHMENT_OPTIMAL supported_NewLayouts /\
  stage_queries (snd run) = stage_queries st /\
  exists b,
    run = (Returns tt,
           mkState [mkPipelineBarrierCmd 1 VK_PIPELINE_STAGE_TOP_OF_PIPE_BIT
                      VK_PIPELINE_STAGE_COLOR_ATTACHMENT_OUTPUT_BIT 0 0 [] 0 [] 1 [b]] []).
Proof.
  intros SubresRange st run.
  assert (HS : VK_PIPELINE_STAGE_TOP_OF_PIPE_BIT <> 0) by discriminate.
  assert (HD : VK_PIPELINE_STAGE_COLOR_ATTACHMENT_OUTPUT_BIT <> 0) by discriminate.
  assert (HC : 1 <> VK_NULL_HANDLE) by discriminate.
  assert (HO : In VK_IMAGE_LAYOUT_UNDEFINED supported_OldLayouts) by (simpl; auto).
  assert (HN : In VK_IMAGE_LAYOUT_COLOR_ATTACHMENT_OPTIMAL supported_NewLayouts)
    by (simpl; auto).
  destruct (TransitionImageLayout_stage_hints 1 1 1 VK_IMAGE_LAYOUT_UNDEFINED
              VK_IMAGE_LAYOUT_COLOR_ATTACHMENT_OPTIMAL SubresRange
              VK_PIPELINE_STAGE_TOP_OF_PIPE_BIT VK_PIPELINE_STAGE_COLOR_ATTACHMENT_OUTPUT_BIT st)
    as [Hq [Hinv Hret]].
  destruct (Hret HC HO HN) as [st' E].
  destruct (Hinv tt st' E) as (b & s & d & _ & Hs & _ & Hd & _ & Est).
  rewrite (Hs HS), (Hd HD) in Est.
  repeat (split; [assumption |]).
  split; [exact (Hq HS HD) |].
  exists b. fold run in E. rewrite E, Est. reflexivity.
Defined.

(** C5: a call that returns has appended exactly one command to the
    recording: a pipeline barrier on the given command buffer with no memory
    barrier, no buffer barrier and one image barrier, whose layouts, image and
    subresource range are the arguments and whose queue family indices are
    both [VK_QUEUE_FAMILY_IGNORED]. *)
Theorem TransitionImageLayout_records_one_barrier CmdBuffer Image AspectMask OldLayout
    NewLayout SubresRange SrcStages DestStages st r st' :
  TransitionImageLayout CmdBuffer Image AspectMask OldLayout NewLayout SubresRange
    SrcStages DestStages st = (Returns r, st') ->
  exists cmd b,
    recorded st' = recorded st ++ [cmd] /\
    commandBuffer cmd = CmdBuffer /\
    dependencyFlags cmd = 0 /\
    memoryBarrierCount cmd = 0 /\ pMemoryBarriers cmd = [] /\
    bufferMemoryBarrierCount cmd = 0 /\ pBufferMemoryBarriers cmd = [] /\
    imageMemoryBarrierCount cmd = 1 /\ pImageMemoryBarriers cmd = [b] /\
    oldLayout b = OldLayout /\ newLayout b = NewLayout /\
    subresourceRange b = SubresRange /\
    srcQueueFamilyIndex b = VK_QUEUE_FAMILY_IGNORED /\
    dstQueueFamilyIndex b = VK_QUEUE_FAMILY_IGNORED /\
    image b = Image.
Proof.
  intros Hrun.
  destruct (TransitionImageLayout_returns_inv _ _ _ _ _ _ _ _ _ _ _ Hrun)
    as (b & s & d & HC & Hb & Hs & Hd).
  rewrite (TransitionImageLayout_success _ _ _ _ _ _ _ _ st b s d HC Hb Hs Hd) in Hrun.
  injection Hrun as _ <-.
  exists (mkPipelineBarrierCmd CmdBuffer s d 0 0 [] 0 [] 1 [b]), b.
  cbn [recorded commandBuffer dependencyFlags memoryBarrierCount pMemoryBarriers
       bufferMemoryBarrierCount pBufferMemoryBarriers imageMemoryBarrierCount
       pImageMemoryBarriers].
  rewrite (layout_switches_frame _ _ _ _ _ _ Hb).
  repeat split; reflexivity.
Qed.

Lemma TransitionImageLayout_records_one_barrier_witness :
  let SubresRange := mkVkImageSubresourceRange 1 0 1 0 1 in
  let st := mkState [] [] in
  let run :=
    TransitionImageLayout 1 1 1 VK_IMAGE_LAYOUT_PREINITIALIZED
      VK_IMAGE_LAYOUT_TRANSFER_SRC_OPTIMAL SubresRange 0 0 st in
  run = (Returns tt, snd run) /\
  exists cmd b,
    recorded (snd run) = recorded st ++ [cmd] /\
    pImageMemoryBarriers cmd = [b] /\
    subresourceRange b = SubresRange.
Proof.
  intros SubresRange st run.
  assert (Hrun : run = (Returns tt, snd run)) by (vm_compute; reflexivity).
  split; [exact Hrun |].
  destruct (TransitionImageLayout_records_one_barrier 1 1 1 VK_IMAGE_LAYOUT_PREINITIALIZED
              VK_IMAGE_LAYOUT_TRANSFER_SRC_OPTIMAL SubresRange 0 0 st tt (snd run) Hrun)
    as (cmd & b & H1 & _ & _ & _ & _ & _ & _ & _ & H2 & _ & _ & H3 & _).
  exists cmd, b. split; [exact H1 | split; [exact H2 | exact H3]].
Defined.

(** C6: with undefined or preinitialized as new layout, or general as old
    or new layout, a call stops at a contract violation; the recording (and
    the rest of the state) is left as it was. *)
Theorem TransitionImageLayout_rejected_layouts CmdBuffer Image AspectMask OldLayout
    NewLayout SubresRange SrcStages DestStages st :
  NewLayout = VK_IMAGE_LAYOUT_UNDEFINED \/ NewLayout = VK_IMAGE_LAYOUT_PREINITIALIZED \/
  OldLayout = VK_IMAGE_LAYOUT_GENERAL \/ NewLayout = VK_IMAGE_LAYOUT_GENERAL ->
  exists msg,
    TransitionImageLayout CmdBuffer Image AspectMask OldLayout NewLayout SubresRange
      SrcStages DestStages st = (Aborts msg, st).
Proof.
  intros H.
  assert (Hab : exists msg,
             layout_switches Image AspectMask OldLayout NewLayout SubresRange = Aborts msg).
  { unfold layout_switches.
    destruct (switch_OldLayout OldLayout _) as [b1 | m |] eqn:H1; cbn [obind].
    - destruct H as [-> | [-> | [-> | ->]]];
        try (eexists; reflexivity).
      vm_compute in H1. discriminate H1.
    - now exists m.
    - now apply switch_OldLayout_not_OutOfFuel in H1. }
  destruct Hab as [msg Hab].
  now apply (TransitionImageLayout_switch_aborts _ _ _ _ _ _ _ _ _ msg).
Qed.

Lemma TransitionImageLayout_rejected_layouts_witness :
  let SubresRange := mkVkImageSubresourceRange 1 0 1 0 1 in
  let st := mkState [] [] in
  (VK_IMAGE_LAYOUT_UNDEFINED = VK_IMAGE_LAYOUT_UNDEFINED \/
   VK_IMAGE_LAYOUT_UNDEFINED = VK_IMAGE_LAYOUT_PREINITIALIZED \/
   VK_IMAGE_LAYOUT_COLOR_ATTACHMENT_OPTIMAL = VK_IMAGE_LAYOUT_GENERAL \/
   VK_IMAGE_LAYOUT_UNDEFINED = VK_IMAGE_LAYOUT_GENERAL) /\
  exists msg,
    TransitionImageLayout 1 1 1 VK_IMAGE_LAYOUT_COLOR_ATTACHMENT_OPTIMAL
      VK_IMAGE_LAYOUT_UNDEFINED SubresRange 0 0 st = (Aborts msg, st).
Proof.
  intros SubresRange st.
  assert (H : VK_IMAGE_LAYOUT_UNDEFINED = VK_IMAGE_LAYOUT_UNDEFINED \/
              VK_IMAGE_LAYOUT_UNDEFINED = VK_IMAGE_LAYOUT_PREINITIALIZED \/
              VK_IMAGE_LAYOUT_COLOR_ATTACHMENT_OPTIMAL = VK_IMAGE_LAYOUT_GENERAL \/
              VK_IMAGE_LAYOUT_UNDEFINED = VK_IMAGE_LAYOUT_GENERAL)
    by (left; reflexivity).
  split; [exact H |].
  exact (TransitionImageLayout_rejected_layouts 1 1 1 VK_IMAGE_LAYOUT_COLOR_ATTACHMENT_OPTIMAL
           VK_IMAGE_LAYOUT_UNDEFINED SubresRange 0 0 st H).
Defined.

(** C7: from shader-read-only to transfer-destination with no stage mask
    supplied, the recorded barrier has shader read as source access mask and
    transfer write as destination access mask, between the vertex,
    tessellation-control, tessellation-evaluation, geometry and fragment
    shader stages together with the compute shader stage as source stage mask
    and transfer as destination stage mask. *)
Theorem TransitionImageLayout_SHADER_READ_ONLY_to_TRANSFER_DST CmdBuffer Image AspectMask
    SubresRange st :
  CmdBuffer <> VK_NULL_HANDLE ->
  TransitionImageLayout CmdBuffer Image AspectMask VK_IMAGE_LAYOUT_SHADER_READ_ONLY_OPTIMAL
    VK_IMAGE_LAYOUT_TRANSFER_DST_OPTIMAL SubresRange 0 0 st =
  (Returns tt,
   mkState
     (recorded st ++
        [mkPipelineBarrierCmd CmdBuffer
           (Z.lor VK_PIPELINE_STAGE_VERTEX_SHADER_BIT
           (Z.lor VK_PIPELINE_STAGE_TESSELLATION_CONTROL_SHADER_BIT
           (Z.lor VK_PIPELINE_STAGE_TESSELLATION_EVALUATION_SHADER_BIT
           (Z.lor VK_PIPELINE_STAGE_GEOMETRY_SHADER_BIT
           (Z.lor VK_PIPELINE_STAGE_FRAGMENT_SHADER_BIT
                  VK_PIPELINE_STAGE_COMPUTE_SHADER_BIT)))))
           VK_PIPELINE_STAGE_TRANSFER_BIT
           0 0 [] 0 [] 1
           [mkVkImageMemoryBarrier VK_STRUCTURE_TYPE_IMAGE_MEMORY_BARRIER 0
              VK_ACCESS_SHADER_READ_BIT VK_ACCESS_TRANSFER_WRITE_BIT
              VK_IMAGE_LAYOUT_SHADER_READ_ONLY_OPTIMAL VK_IMAGE_LAYOUT_TRANSFER_DST_OPTIMAL
              VK_QUEUE_FAMILY_IGNORED VK_QUEUE_FAMILY_IGNORED Image SubresRange]])
     (stage_queries st ++ [VK_ACCESS_SHADER_READ_BIT; VK_ACCESS_TRANSFER_WRITE_BIT])).
Proof.
  intros HC.
  apply (TransitionImageLayout_success CmdBuffer Image AspectMask
           VK_IMAGE_LAYOUT_SHADER_READ_ONLY_OPTIMAL VK_IMAGE_LAYOUT_TRANSFER_DST_OPTIMAL
           SubresRange 0 0 st); [assumption | reflexivity | reflexivity | reflexivity].
Qed.

Lemma TransitionImageLayout_SHADER_READ_ONLY_to_TRANSFER_DST_witness :
  let SubresRange := mkVkImageSubresourceRange 1 0 1 0 1 in
  7 <> VK_NULL_HANDLE /\
  TransitionImageLayout 7 3 1 VK_IMAGE_LAYOUT_SHADER_READ_ONLY_OPTIMAL
    VK_IMAGE_LAYOUT_TRANSFER_DST_OPTIMAL SubresRange 0 0 (mkState [] []) =
  (Returns tt,
   mkState
     [mkPipelineBarrierCmd 7
        (Z.lor VK_PIPELINE_STAGE_VERTEX_SHADER_BIT
        (Z.lor VK_PIPELINE_STAGE_TESSELLATION_CONTROL_SHADER_BIT
        (Z.lor VK_PIPELINE_STAGE_TESSELLATION_EVALUATION_SHADER_BIT
        (Z.lor VK_PIPELINE_STAGE_GEOMETRY_SHADER_BIT
        (Z.lor VK_PIPELINE_STAGE_FRAGMENT_SHADER_BIT
               VK_PIPELINE_STAGE_COMPUTE_SHADER_BIT)))))
        VK_PIPELINE_STAGE_TRANSFER_BIT
        0 0 [] 0 [] 1
        [mkVkImageMemoryBarrier VK_STRUCTURE_TYPE_IMAGE_MEMORY_BARRIER 0
           VK_ACCESS_SHADER_READ_BIT VK_ACCESS_TRANSFER_WRITE_BIT
           VK_IMAGE_LAYOUT_SHADER_READ_ONLY_OPTIMAL VK_IMAGE_LAYOUT_TRANSFER_DST_OPTIMAL
           VK_QUEUE_FAMILY_IGNORED VK_QUEUE_FAMILY_IGNORED 3 SubresRange]]
     [VK_ACCESS_SHADER_READ_BIT; VK_ACCESS_TRANSFER_WRITE_BIT]).
Proof.
  intros SubresRange.
  assert (HC : 7 <> VK_NULL_HANDLE) by discriminate.
  split; [exact HC |].
  exact (TransitionImageLayout_SHADER_READ_ONLY_to_TRANSFER_DST 7 3 1 SubresRange
           (mkState [] []) HC).
Defined.

(** C8: [FlushBarriers] returns without recording a command, changing the
    object it is called on or any other state, or raising an error; in
    particular so when no barrier is pending. *)
Theorem FlushBarriers_noop (VulkanCommandBuffer : Type) (this : VulkanCommandBuffer)
    (st : State) :
  FlushBarriers this st = (Returns this, st).
Proof. reflexivity. Qed.

(** C9: two calls that differ in the [AspectMask] argument only have the
    same outcome and leave the same state; and the subresource range of the
    barrier a call records, aspect mask included, is the [SubresRange]
    argument. *)
Theorem TransitionImageLayout_AspectMask_unused CmdBuffer Image AspectMask AspectMask'
    OldLayout NewLayout SubresRange SrcStages DestStages st :
  TransitionImageLayout CmdBuffer Image AspectMask OldLayout NewLayout SubresRange
    SrcStages DestStages st =
  TransitionImageLayout CmdBuffer Image AspectMask' OldLayout NewLayout SubresRange
    SrcStages DestStages st /\
  (forall r st',
     TransitionImageLayout CmdBuffer Image AspectMask OldLayout NewLayout SubresRange
       SrcStages DestStages st = (Returns r, st') ->
     exists cmd b,
       recorded st' = recorded st ++ [cmd] /\
       pImageMemoryBarriers cmd = [b] /\
       aspectMask (subresourceRange b) = aspectMask SubresRange).
Proof.
  split; [reflexivity |].
  intros r st' Hrun.
  destruct (TransitionImageLayout_returns_inv _ _ _ _ _ _ _ _ _ _ _ Hrun)
    as (b & s & d & HC & Hb & Hs & Hd).
  rewrite (TransitionImageLayout_success _ _ _ _ _ _ _ _ st b s d HC Hb Hs Hd) in Hrun.
  injection Hrun as _ <-.
  exists (mkPipelineBarrierCmd CmdBuffer s d 0 0 [] 0 [] 1 [b]), b.
  rewrite (layout_switches_frame _ _ _ _ _ _ Hb).
  repeat split; reflexivity.
Qed.

Lemma TransitionImageLayout_AspectMask_unused_witness :
  let SubresRange := mkVkImageSubresourceRange 1 0 1 0 1 in
  let st := mkState [] [] in
  let run AspectMask :=
    TransitionImageLayout 1 1 AspectMask VK_IMAGE_LAYOUT_TRANSFER_DST_OPTIMAL
      VK_IMAGE_LAYOUT_SHADER_READ_ONLY_OPTIMAL SubresRange 0 0 st in
  run 2 = run 4 /\
  run 2 = (Returns tt, snd (run 2)) /\
  exists cmd b,
    recorded (snd (run 2)) = recorded st ++ [cmd] /\
    pImageMemoryBarriers cmd = [b] /\
    aspectMask (subresourceRange b) = 1.
Proof.
  intros SubresRange st run.
  assert (Hrun : run 2 = (Returns tt, snd (run 2))) by (vm_compute; reflexivity).
  destruct (TransitionImageLayout_AspectMask_unused 1 1 2 4
              VK_IMAGE_LAYOUT_TRANSFER_DST_OPTIMAL VK_IMAGE_LAYOUT_SHADER_READ_ONLY_OPTIMAL
              SubresRange 0 0 st) as [Heq Hrec].
  split; [exact Heq | split; [exact Hrun |]].
  exact (Hrec tt (snd (run 2)) Hrun).
Defined.

(** * Further properties *)

(** ** Masks as sets of bits *)

Lemma mask_subset_lor a b : mask_subset a b -> Z.lor a b = b.
Proof.
  unfold mask_subset. intros H. apply Z.bits_inj'. intros n _.
  rewrite Z.lor_spec, <- H, Z.land_spec.
  destruct (Z.testbit a n), (Z.testbit b n); reflexivity.
Qed.

Lemma lor_mask_subset a b : Z.lor a b = b -> mask_subset a b.
Proof.
  unfold mask_subset. intros H. apply Z.bits_inj'. intros n _.
  rewrite <- H, Z.land_spec, Z.lor_spec.
  destruct (Z.testbit a n), (Z.testbit b n); reflexivity.
Qed.

Lemma mask_subset_lor_l a b m : mask_subset a m -> mask_subset b m -> mask_subset (Z.lor a b) m.
Proof.
  unfold mask_subset. intros Ha Hb. now rewrite Z.land_lor_distr_l, Ha, Hb.
Qed.

Lemma testbit_lor_pow2 a k : 0 <= k -> Z.testbit a k = true -> Z.lor (2 ^ k) a = a.
Proof.
  intros Hk Hbit. apply Z.bits_inj'. intros n Hn.
  rewrite Z.lor_spec, Z.pow2_bits_eqb by assumption.
  destruct (Z.eqb_spec k n) as [<- | Hne]; [now rewrite Hbit | reflexivity].
Qed.

Lemma pow2_uint32 k : 0 <= k < 32 -> uint32 (2 ^ k).
Proof.
  intros Hk. unfold uint32. split; [apply Z.pow_nonneg; lia |].
  apply Z.pow_lt_mono_r; lia.
Qed.

Lemma union_stages_Returns r1 r2 s :
  union_stages r1 r2 = Returns s ->
  exists s1 s2, r1 = Returns s1 /\ r2 = Returns s2 /\ s = Z.lor s1 s2.
Proof.
  unfold union_stages.
  destruct r1 as [s1 | |]; cbn [obind]; try discriminate.
  destruct r2 as [s2 | |]; cbn [obind]; try discriminate.
  intros H. injection H as <-. now exists s1, s2.
Qed.

Lemma union_stages_0_r r : union_stages r (Returns 0) = r.
Proof. destruct r as [s | |]; cbn; [now rewrite Z.lor_0_r | reflexivity | reflexivity]. Qed.

(** ** More on [PipelineStageFromAccessFlags] *)

(** X1: the [VERIFY_EXPR] of the loop body never fails: on every non-zero
    32-bit mask the picked flag is non-zero and has a single bit. *)
Theorem loop_body_VERIFY_EXPR_holds (AccessFlags : VkAccessFlags) :
  uint32 AccessFlags -> AccessFlags <> 0 ->
  let AccessFlag := pick_AccessFlag AccessFlags in
  negb (AccessFlag =? 0) && (Z.land AccessFlag (sub32 AccessFlag 1) =? 0) = true /\
  forall Stages,
    loop_body AccessFlags Stages =
    (Stages <- switch_AccessFlag AccessFlag Stages ;;
     Returns (Z.land AccessFlags (not32 AccessFlag), Stages))%outcome.
Proof.
  intros Ha Hnz AccessFlag.
  destruct (lowest_set_bit_spec AccessFlags Ha Hnz) as [Hk [Hbit Hlow]].
  assert (Hpick : AccessFlag = 2 ^ lowest_set_bit AccessFlags)
    by (apply pick_AccessFlag_lowest; try assumption; lia).
  assert (Hv : negb (AccessFlag =? 0) && (Z.land AccessFlag (sub32 AccessFlag 1) =? 0) = true)
    by (rewrite Hpick; now apply pow2_flag_checks).
  split; [exact Hv |].
  intros Stages. unfold loop_body. fold AccessFlag. now rewrite Hv.
Qed.

Lemma loop_body_VERIFY_EXPR_holds_witness :
  uint32 0x80000120 /\ 0x80000120 <> 0 /\
  negb (pick_AccessFlag 0x80000120 =? 0)
  && (Z.land (pick_AccessFlag 0x80000120) (sub32 (pick_AccessFlag 0x80000120) 1) =? 0) = true.
Proof.
  assert (Ha : uint32 0x80000120) by (vm_compute; split; [discriminate | reflexivity]).
  assert (Hnz : 0x80000120 <> 0) by discriminate.
  split; [exact Ha | split; [exact Hnz |]].
  exact (proj1 (loop_body_VERIFY_EXPR_holds 0x80000120 Ha Hnz)).
Defined.

(** Each single flag contributes stages of [inferable_stages] only. *)
Lemma switch_AccessFlag_pow2_inferable : forall k, 0 <= k < 32 ->
  (exists c, mask_subset c inferable_stages /\
             forall Stages, switch_AccessFlag (2 ^ k) Stages = Returns (Z.lor Stages c)) \/
  (forall Stages, switch_AccessFlag (2 ^ k) Stages = Aborts Unknown_memory_access_flag).
Proof.
  apply below_32_ind.
  repeat (constructor;
          [ first [ left; eexists; split; [| intros Stages; cbn; reflexivity]; reflexivity
                  | left; exists 0; split; [reflexivity |];
                    intros Stages; cbn; now rewrite Z.lor_0_r
                  | right; intros Stages; reflexivity ] | ]).
  constructor.
Qed.

Lemma scan_bits_inferable n : forall k a Stages s,
  0 <= k -> k + Z.of_nat n <= 32 ->
  mask_subset Stages inferable_stages ->
  scan_bits n k a Stages = Returns s -> mask_subset s inferable_stages.
Proof.
  induction n as [| n IH]; intros k a Stages s Hk Hn HS; cbn [scan_bits].
  - intros H. now injection H as <-.
  - destruct (Z.testbit a k).
    + destruct (switch_AccessFlag_pow2_inferable k ltac:(lia)) as [[c [Hc Hsw]] | Hab].
      * rewrite Hsw. cbn [obind]. apply IH; try lia. now apply mask_subset_lor_l.
      * rewrite Hab. discriminate.
    + apply IH; try assumption; lia.
Qed.

(** X2: whatever the access mask, a stage mask the function returns is made
    of the stages its cases name; it never holds top-of-pipe or
    bottom-of-pipe (nor any bit from 2^15 upwards). *)
Theorem PipelineStageFromAccessFlags_inferable_stages (AccessFlags : VkAccessFlags) s :
  uint32 AccessFlags ->
  PipelineStageFromAccessFlags AccessFlags = Returns s ->
  mask_subset s inferable_stages /\
  Z.land s (Z.lor VK_PIPELINE_STAGE_TOP_OF_PIPE_BIT VK_PIPELINE_STAGE_BOTTOM_OF_PIPE_BIT) = 0 /\
  0 <= s < 2 ^ 15.
Proof.
  intros Ha Hs. rewrite PipelineStageFromAccessFlags_scan in Hs by assumption.
  assert (Hsub : mask_subset s inferable_stages).
  { apply (scan_bits_inferable 32 0 AccessFlags 0 s); try assumption; try (simpl; lia).
    reflexivity. }
  split; [exact Hsub |].
  unfold mask_subset in Hsub. rewrite <- Hsub. split.
  - rewrite <- Z.land_assoc. change (Z.land inferable_stages _) with 0. apply Z.land_0_r.
  - change inferable_stages with (Z.land inferable_stages (Z.ones 15)).
    rewrite Z.land_assoc, Z.land_ones by lia. apply Z.mod_pos_bound. lia.
Qed.

Lemma PipelineStageFromAccessFlags_inferable_stages_witness :
  let AccessFlags := Z.lor VK_ACCESS_HOST_WRITE_BIT VK_ACCESS_UNIFORM_READ_BIT in
  let s := Z.lor VK_PIPELINE_STAGE_HOST_BIT
             (Z.lor ALL_GRAPHICS_SHADER_STAGES_BITS VK_PIPELINE_STAGE_COMPUTE_SHADER_BIT) in
  uint32 AccessFlags /\
  PipelineStageFromAccessFlags AccessFlags = Returns s /\
  mask_subset s inferable_stages.
Proof.
  intros AccessFlags s.
  assert (Ha : uint32 AccessFlags) by (vm_compute; split; [discriminate | reflexivity]).
  assert (Hs : PipelineStageFromAccessFlags AccessFlags = Returns s)
    by (vm_compute; reflexivity).
  split; [exact Ha | split; [exact Hs |]].
  exact (proj1 (PipelineStageFromAccessFlags_inferable_stages AccessFlags s Ha Hs)).
Defined.

Lemma memory_access_flags_uint32 : uint32 memory_access_flags.
Proof. vm_compute. split; [discriminate | reflexivity]. Qed.

(** X3: the generic memory-read and memory-write flags never change the
    result: adding either or both to a mask gives the same outcome, be it a
    stage mask or a contract violation. *)
Theorem PipelineStageFromAccessFlags_ignores_memory_flags (AccessFlags : VkAccessFlags) :
  uint32 AccessFlags ->
  PipelineStageFromAccessFlags (Z.lor AccessFlags VK_ACCESS_MEMORY_READ_BIT)
    = PipelineStageFromAccessFlags AccessFlags /\
  PipelineStageFromAccessFlags (Z.lor AccessFlags VK_ACCESS_MEMORY_WRITE_BIT)
    = PipelineStageFromAccessFlags AccessFlags /\
  PipelineStageFromAccessFlags (Z.lor AccessFlags memory_access_flags)
    = PipelineStageFromAccessFlags AccessFlags.
Proof.
  intros Ha.
  repeat split;
    (rewrite PipelineStageFromAccessFlags_lor;
     [ apply union_stages_0_r
     | assumption
     | vm_compute; split; [discriminate | reflexivity] ]).
Qed.

Lemma PipelineStageFromAccessFlags_ignores_memory_flags_witness :
  uint32 VK_ACCESS_TRANSFER_READ_BIT /\
  PipelineStageFromAccessFlags (Z.lor VK_ACCESS_TRANSFER_READ_BIT memory_access_flags)
    = PipelineStageFromAccessFlags VK_ACCESS_TRANSFER_READ_BIT.
Proof.
  assert (Ha : uint32 VK_ACCESS_TRANSFER_READ_BIT)
    by (vm_compute; split; [discriminate | reflexivity]).
  split; [exact Ha |].
  exact (proj2 (proj2 (PipelineStageFromAccessFlags_ignores_memory_flags _ Ha))).
Defined.

(** A single flag other than the two memory flags gives a non-empty stage
    mask or a contract violation. *)
Lemma PipelineStageFromAccessFlags_pow2_nonzero : forall k, 0 <= k < 32 ->
  Z.testbit memory_access_flags k = false ->
  PipelineStageFromAccessFlags (2 ^ k) <> Returns 0.
Proof.
  apply (below_32_ind (fun k => Z.testbit memory_access_flags k = false ->
                                PipelineStageFromAccessFlags (2 ^ k) <> Returns 0)).
  repeat (constructor; [ intros H; vm_compute; vm_compute in H; discriminate | ]).
  constructor.
Qed.

Lemma land_pow2 a k : 0 <= k -> Z.land a (2 ^ k) = if Z.testbit a k then 2 ^ k else 0.
Proof.
  intros Hk. apply Z.bits_inj'. intros n Hn.
  rewrite Z.land_spec, Z.pow2_bits_eqb by assumption.
  destruct (Z.eqb_spec k n) as [<- | Hne].
  - destruct (Z.testbit a k); [| now rewrite Z.bits_0].
    rewrite Z.pow2_bits_eqb, Z.eqb_refl by assumption. reflexivity.
  - rewrite andb_false_r. destruct (Z.testbit a k); [| now rewrite Z.bits_0].
    rewrite Z.pow2_bits_eqb by assumption. symmetry. now apply Z.eqb_neq.
Qed.

(** X4: the inferred stage mask is empty exactly when the access mask holds
    nothing but the two memory flags (the empty mask included). *)
Theorem PipelineStageFromAccessFlags_empty_iff (AccessFlags : VkAccessFlags) :
  uint32 AccessFlags ->
  (PipelineStageFromAccessFlags AccessFlags = Returns 0 <->
   mask_subset AccessFlags memory_access_flags).
Proof.
  intros Ha. split.
  - intros H0. unfold mask_subset. apply Z.bits_inj'. intros n Hn.
    rewrite Z.land_spec.
    destruct (Z.testbit AccessFlags n) eqn:Hbit; [| reflexivity].
    destruct (Z.testbit memory_access_flags n) eqn:Hmem; [reflexivity | exfalso].
    assert (Hn32 : n < 32).
    { destruct (Z_lt_le_dec n 32) as [| Hge]; [assumption |].
      rewrite (uint32_testbit_high _ _ Ha Hge) in Hbit. discriminate. }
    assert (Hu : PipelineStageFromAccessFlags AccessFlags =
                 union_stages (PipelineStageFromAccessFlags (2 ^ n))
                              (PipelineStageFromAccessFlags AccessFlags)).
    { rewrite <- PipelineStageFromAccessFlags_lor by (try assumption; apply pow2_uint32; lia).
      now rewrite testbit_lor_pow2. }
    rewrite H0 in Hu. symmetry in Hu.
    destruct (union_stages_Returns _ _ _ Hu) as (s1 & s2 & H1 & H2 & Hz).
    injection H2 as <-. rewrite Z.lor_0_r in Hz. subst s1.
    now apply (PipelineStageFromAccessFlags_pow2_nonzero n ltac:(lia) Hmem).
  - unfold mask_subset, memory_access_flags. intros Hsub.
    rewrite <- Hsub, Z.land_lor_distr_r.
    change VK_ACCESS_MEMORY_READ_BIT with (2 ^ 15).
    change VK_ACCESS_MEMORY_WRITE_BIT with (2 ^ 16).
    rewrite !land_pow2 by lia.
    destruct (Z.testbit AccessFlags 15), (Z.testbit AccessFlags 16); reflexivity.
Qed.

Lemma PipelineStageFromAccessFlags_empty_iff_witness :
  uint32 VK_ACCESS_MEMORY_READ_BIT /\
  mask_subset VK_ACCESS_MEMORY_READ_BIT memory_access_flags /\
  PipelineStageFromAccessFlags VK_ACCESS_MEMORY_READ_BIT = Returns 0.
Proof.
  assert (Ha : uint32 VK_ACCESS_MEMORY_READ_BIT)
    by (vm_compute; split; [discriminate | reflexivity]).
  assert (Hsub : mask_subset VK_ACCESS_MEMORY_READ_BIT memory_access_flags) by reflexivity.
  split; [exact Ha | split; [exact Hsub |]].
  exact (proj2 (PipelineStageFromAccessFlags_empty_iff _ Ha) Hsub).
Defined.

(** X5: the function is monotone: when it returns on a mask, it returns on
    every mask included in it, with a stage mask included in the first. *)
Theorem PipelineStageFromAccessFlags_monotone (A B : VkAccessFlags) sB :
  uint32 A -> uint32 B -> mask_subset A B ->
  PipelineStageFromAccessFlags B = Returns sB ->
  exists sA, PipelineStageFromAccessFlags A = Returns sA /\ mask_subset sA sB.
Proof.
  intros HA HB Hsub HsB.
  assert (Hu : PipelineStageFromAccessFlags B =
               union_stages (PipelineStageFromAccessFlags A) (PipelineStageFromAccessFlags B)).
  { rewrite <- PipelineStageFromAccessFlags_lor by assumption.
    now rewrite mask_subset_lor. }
  rewrite HsB in Hu. symmetry in Hu.
  destruct (union_stages_Returns _ _ _ Hu) as (s1 & s2 & H1 & H2 & Hz).
  injection H2 as <-. exists s1. split; [exact H1 |].
  apply lor_mask_subset. now symmetry.
Qed.

Lemma PipelineStageFromAccessFlags_monotone_witness :
  let A := VK_ACCESS_INDEX_READ_BIT in
  let B := Z.lor VK_ACCESS_INDEX_READ_BIT VK_ACCESS_SHADER_WRITE_BIT in
  let sB := Z.lor VK_PIPELINE_STAGE_VERTEX_INPUT_BIT
              (Z.lor ALL_GRAPHICS_SHADER_STAGES_BITS VK_PIPELINE_STAGE_COMPUTE_SHADER_BIT) in
  uint32 A /\ uint32 B /\ mask_subset A B /\
  PipelineStageFromAccessFlags B = Returns sB /\
  exists sA, PipelineStageFromAccessFlags A = Returns sA /\ mask_subset sA sB.
Proof.
  intros A B sB.
  assert (HA : uint32 A) by (vm_compute; split; [discriminate | reflexivity]).
  assert (HB : uint32 B) by (vm_compute; split; [discriminate | reflexivity]).
  assert (Hsub : mask_subset A B) by reflexivity.
  assert (HsB : PipelineStageFromAccessFlags B = Returns sB) by (vm_compute; reflexivity).
  split; [exact HA | split; [exact HB | split; [exact Hsub | split; [exact HsB |]]]].
  exact (PipelineStageFromAccessFlags_monotone A B sB HA HB Hsub HsB).
Defined.

(** X6: on 32-bit masks the function returns exactly on the masks made of
    the seventeen access flags (bits 0 to 16); any other mask reaches the
    default case and stops there. *)
Theorem PipelineStageFromAccessFlags_returns_iff (AccessFlags : VkAccessFlags) :
  uint32 AccessFlags ->
  ((exists s, PipelineStageFromAccessFlags AccessFlags = Returns s) <->
   AccessFlags < 2 ^ 17) /\
  (2 ^ 17 <= AccessFlags ->
   PipelineStageFromAccessFlags AccessFlags = Aborts Unknown_memory_access_flag).
Proof.
  intros Ha.
  assert (Hhigh : 2 ^ 17 <= AccessFlags ->
                  PipelineStageFromAccessFlags AccessFlags = Aborts Unknown_memory_access_flag).
  { intros Hge.
    apply (PipelineStageFromAccessFlags_unknown AccessFlags (Z.log2 AccessFlags)).
    - assumption.
    - change 17 with (Z.log2 (2 ^ 17)). now apply Z.log2_le_mono.
    - apply Z.bit_log2. lia. }
  split; [| exact Hhigh].
  split.
  - intros [s Hs]. destruct (Z_lt_le_dec AccessFlags (2 ^ 17)) as [| Hge]; [assumption |].
    rewrite (Hhigh Hge) in Hs. discriminate.
  - intros Hlt. apply PipelineStageFromAccessFlags_known. unfold uint32 in Ha. lia.
Qed.

Lemma PipelineStageFromAccessFlags_returns_iff_witness :
  uint32 0x20000 /\ 2 ^ 17 <= 0x20000 /\
  PipelineStageFromAccessFlags 0x20000 = Aborts Unknown_memory_access_flag.
Proof.
  assert (Ha : uint32 0x20000) by (vm_compute; split; [discriminate | reflexivity]).
  assert (Hge : 2 ^ 17 <= 0x20000) by (vm_compute; discriminate).
  split; [exact Ha | split; [exact Hge |]].
  exact (proj2 (PipelineStageFromAccessFlags_returns_iff 0x20000 Ha) Hge).
Defined.

(** ** More on [TransitionImageLayout] *)

Lemma switch_NewLayout_not_OutOfFuel NewLayout b : switch_NewLayout NewLayout b <> OutOfFuel.
Proof.
  unfold switch_NewLayout, UNEXPECTED.
  repeat match goal with
         | |- context [if ?c then _ else _] => destruct c
         end; discriminate.
Qed.

Lemma switch_OldLayout_returns_supported OldLayout b b' :
  switch_OldLayout OldLayout b = Returns b' -> In OldLayout supported_OldLayouts.
Proof.
  unfold switch_OldLayout, UNEXPECTED.
  repeat match goal with
         | |- context [if ?c =? ?v then _ else _] => destruct (Z.eqb_spec c v)
         end;
    intros H; try discriminate H; subst OldLayout; simpl; tauto.
Qed.

Lemma switch_NewLayout_returns_supported NewLayout b b' :
  switch_NewLayout NewLayout b = Returns b' -> In NewLayout supported_NewLayouts.
Proof.
  unfold switch_NewLayout, UNEXPECTED.
  repeat match goal with
         | |- context [if ?c =? ?v then _ else _] => destruct (Z.eqb_spec c v)
         end;
    intros H; try discriminate H; subst NewLayout; simpl; tauto.
Qed.

Lemma layout_switches_returns_supported Image AspectMask OldLayout NewLayout SubresRange b :
  layout_switches Image AspectMask OldLayout NewLayout SubresRange = Returns b ->
  In OldLayout supported_OldLayouts /\ In NewLayout supported_NewLayouts.
Proof.
  unfold layout_switches.
  destruct (switch_OldLayout OldLayout _) as [b1 | |] eqn:H1; cbn [obind]; try discriminate.
  intros H2. split.
  - eapply switch_OldLayout_returns_supported; eassumption.
  - eapply switch_NewLayout_returns_supported; eassumption.
Qed.

Lemma layout_switches_not_OutOfFuel Image AspectMask OldLayout NewLayout SubresRange :
  layout_switches Image AspectMask OldLayout NewLayout SubresRange <> OutOfFuel.
Proof.
  unfold layout_switches.
  destruct (switch_OldLayout OldLayout _) as [b1 | |] eqn:H1; cbn [obind]; try discriminate.
  - apply switch_NewLayout_not_OutOfFuel.
  - now apply switch_OldLayout_not_OutOfFuel in H1.
Qed.

(** What a returning call has recorded, and that it would record the same
    from any other state. *)
Lemma TransitionImageLayout_recorded CmdBuffer Image AspectMask OldLayout NewLayout
    SubresRange SrcStages DestStages st r st' :
  TransitionImageLayout CmdBuffer Image AspectMask OldLayout NewLayout SubresRange
    SrcStages DestStages st = (Returns r, st') ->
  exists b s d q,
    layout_switches Image AspectMask OldLayout NewLayout SubresRange = Returns b /\
    (if SrcStages =? 0 then PipelineStageFromAccessFlags (srcAccessMask b)
     else Returns SrcStages) = Returns s /\
    (if DestStages =? 0 then PipelineStageFromAccessFlags (dstAccessMask b)
     else Returns DestStages) = Returns d /\
    forall st0,
      TransitionImageLayout CmdBuffer Image AspectMask OldLayout NewLayout SubresRange
        SrcStages DestStages st0 =
      (Returns tt,
       mkState (recorded st0 ++ [mkPipelineBarrierCmd CmdBuffer s d 0 0 [] 0 [] 1 [b]])
               (stage_queries st0 ++ q)).
Proof.
  intros Hrun.
  destruct (TransitionImageLayout_returns_inv _ _ _ _ _ _ _ _ _ _ _ Hrun)
    as (b & s & d & HC & Hb & Hs & Hd).
  exists b, s, d. eexists. repeat (split; [eassumption |]).
  intros st0. now apply TransitionImageLayout_success.
Qed.

(** X7: a call returns exactly when the command buffer is not null, the old
    layout is one of the eleven the first switch assigns a mask to and the
    new layout one of the nine the second switch assigns a mask to; the
    stage inference never makes it fail. *)
Theorem TransitionImageLayout_returns_iff CmdBuffer Image AspectMask OldLayout NewLayout
    SubresRange SrcStages DestStages st :
  (exists st',
     TransitionImageLayout CmdBuffer Image AspectMask OldLayout NewLayout SubresRange
       SrcStages DestStages st = (Returns tt, st')) <->
  CmdBuffer <> VK_NULL_HANDLE /\
  In OldLayout supported_OldLayouts /\ In NewLayout supported_NewLayouts.
Proof.
  split.
  - intros [st' Hrun].
    destruct (TransitionImageLayout_returns_inv _ _ _ _ _ _ _ _ _ _ _ Hrun)
      as (b & s & d & HC & Hb & _).
    split; [exact HC |]. eapply layout_switches_returns_supported; eassumption.
  - intros (HC & HO & HN). now apply TransitionImageLayout_returns.
Qed.

(** X8: a call is all or nothing: either it returns, having appended one
    command to the recording, or it stops at a contract violation with the
    state exactly as it was. *)
Theorem TransitionImageLayout_all_or_nothing CmdBuffer Image AspectMask OldLayout NewLayout
    SubresRange SrcStages DestStages st :
  (exists cmd q,
     TransitionImageLayout CmdBuffer Image AspectMask OldLayout NewLayout SubresRange
       SrcStages DestStages st =
     (Returns tt, mkState (recorded st ++ [cmd]) (stage_queries st ++ q))) \/
  (exists msg,
     TransitionImageLayout CmdBuffer Image AspectMask OldLayout NewLayout SubresRange
       SrcStages DestStages st = (Aborts msg, st)).
Proof.
  destruct (layout_switches Image AspectMask OldLayout NewLayout SubresRange)
    as [b | msg |] eqn:Hb.
  - destruct (Z.eq_dec CmdBuffer VK_NULL_HANDLE) as [-> | HC].
    + right. eexists. reflexivity.
    + left.
      destruct (layout_switches_returns_supported _ _ _ _ _ _ Hb) as [HO HN].
      destruct (TransitionImageLayout_returns CmdBuffer Image AspectMask OldLayout NewLayout
                  SubresRange SrcStages DestStages st HC HO HN) as [st' Hrun].
      destruct (TransitionImageLayout_recorded _ _ _ _ _ _ _ _ _ _ _ Hrun)
        as (b' & s & d & q & _ & _ & _ & Hall).
      eexists; eexists. apply Hall.
  - right. eapply TransitionImageLayout_switch_aborts; eassumption.
  - now apply layout_switches_not_OutOfFuel in Hb.
Qed.

(** X9: two calls in sequence append their two commands in call order, and
    the command of each is the one it records from any other state. *)
Theorem TransitionImageLayout_sequence
    CmdBuffer1 Image1 AspectMask1 OldLayout1 NewLayout1 SubresRange1 SrcStages1 DestStages1
    CmdBuffer2 Image2 AspectMask2 OldLayout2 NewLayout2 SubresRange2 SrcStages2 DestStages2
    sta r1 sta' stb r2 stb' :
  TransitionImageLayout CmdBuffer1 Image1 AspectMask1 OldLayout1 NewLayout1 SubresRange1
    SrcStages1 DestStages1 sta = (Returns r1, sta') ->
  TransitionImageLayout CmdBuffer2 Image2 AspectMask2 OldLayout2 NewLayout2 SubresRange2
    SrcStages2 DestStages2 stb = (Returns r2, stb') ->
  exists cmd1 cmd2,
    recorded sta' = recorded sta ++ [cmd1] /\
    recorded stb' = recorded stb ++ [cmd2] /\
    forall st,
      exists q,
        (TransitionImageLayout CmdBuffer1 Image1 AspectMask1 OldLayout1 NewLayout1
           SubresRange1 SrcStages1 DestStages1 ;;
         TransitionImageLayout CmdBuffer2 Image2 AspectMask2 OldLayout2 NewLayout2
           SubresRange2 SrcStages2 DestStages2)%M st =
        (Returns tt, mkState (recorded st ++ [cmd1; cmd2]) (stage_queries st ++ q)).
Proof.
  intros H1 H2.
  destruct (TransitionImageLayout_recorded _ _ _ _ _ _ _ _ _ _ _ H1)
    as (b1 & s1 & d1 & q1 & _ & _ & _ & Hall1).
  destruct (TransitionImageLayout_recorded _ _ _ _ _ _ _ _ _ _ _ H2)
    as (b2 & s2 & d2 & q2 & _ & _ & _ & Hall2).
  exists (mkPipelineBarrierCmd CmdBuffer1 s1 d1 0 0 [] 0 [] 1 [b1]),
         (mkPipelineBarrierCmd CmdBuffer2 s2 d2 0 0 [] 0 [] 1 [b2]).
  rewrite Hall1 in H1. rewrite Hall2 in H2.
  injection H1 as _ <-. injection H2 as _ <-.
  split; [reflexivity | split; [reflexivity |]].
  intros st. exists (q1 ++ q2).
  unfold bind. rewrite Hall1, Hall2. cbn [recorded stage_queries].
  now rewrite <- !app_assoc.
Qed.

Lemma TransitionImageLayout_returns_iff_witness :
  let SubresRange := mkVkImageSubresourceRange 1 0 1 0 1 in
  (1 <> VK_NULL_HANDLE /\
   In VK_IMAGE_LAYOUT_TRANSFER_DST_OPTIMAL supported_OldLayouts /\
   In VK_IMAGE_LAYOUT_PRESENT_SRC_KHR supported_NewLayouts) /\
  exists st',
    TransitionImageLayout 1 1 1 VK_IMAGE_LAYOUT_TRANSFER_DST_OPTIMAL
      VK_IMAGE_LAYOUT_PRESENT_SRC_KHR SubresRange 0 VK_PIPELINE_STAGE_BOTTOM_OF_PIPE_BIT
      (mkState [] []) = (Returns tt, st').
Proof.
  intros SubresRange.
  assert (H : 1 <> VK_NULL_HANDLE /\
              In VK_IMAGE_LAYOUT_TRANSFER_DST_OPTIMAL supported_OldLayouts /\
              In VK_IMAGE_LAYOUT_PRESENT_SRC_KHR supported_NewLayouts)
    by (split; [discriminate | split; simpl; tauto]).
  split; [exact H |].
  exact (proj2 (TransitionImageLayout_returns_iff 1 1 1 VK_IMAGE_LAYOUT_TRANSFER_DST_OPTIMAL
                  VK_IMAGE_LAYOUT_PRESENT_SRC_KHR SubresRange 0
                  VK_PIPELINE_STAGE_BOTTOM_OF_PIPE_BIT (mkState [] [])) H).
Defined.

Lemma TransitionImageLayout_sequence_witness :
  let SubresRange := mkVkImageSubresourceRange 1 0 1 0 1 in
  let st0 := mkState [] [] in
  let run1 :=
    TransitionImageLayout 1 1 1 VK_IMAGE_LAYOUT_UNDEFINED
      VK_IMAGE_LAYOUT_TRANSFER_DST_OPTIMAL SubresRange VK_PIPELINE_STAGE_TOP_OF_PIPE_BIT 0 st0 in
  let run2 :=
    TransitionImageLayout 1 1 1 VK_IMAGE_LAYOUT_TRANSFER_DST_OPTIMAL
      VK_IMAGE_LAYOUT_SHADER_READ_ONLY_OPTIMAL SubresRange 0 0 st0 in
  run1 = (Returns tt, snd run1) /\ run2 = (Returns tt, snd run2) /\
  exists cmd1 cmd2,
    recorded (snd run1) = [cmd1] /\ recorded (snd run2) = [cmd2] /\
    exists q,
      (TransitionImageLayout 1 1 1 VK_IMAGE_LAYOUT_UNDEFINED
         VK_IMAGE_LAYOUT_TRANSFER_DST_OPTIMAL SubresRange VK_PIPELINE_STAGE_TOP_OF_PIPE_BIT 0 ;;
       TransitionImageLayout 1 1 1 VK_IMAGE_LAYOUT_TRANSFER_DST_OPTIMAL
         VK_IMAGE_LAYOUT_SHADER_READ_ONLY_OPTIMAL SubresRange 0 0)%M st0 =
      (Returns tt, mkState [cmd1; cmd2] q).
Proof.
  intros SubresRange st0 run1 run2.
  assert (H1 : run1 = (Returns tt, snd run1)) by (vm_compute; reflexivity).
  assert (H2 : run2 = (Returns tt, snd run2)) by (vm_compute; reflexivity).
  split; [exact H1 | split; [exact H2 |]].
  destruct (TransitionImageLayout_sequence
              1 1 1 VK_IMAGE_LAYOUT_UNDEFINED VK_IMAGE_LAYOUT_TRANSFER_DST_OPTIMAL SubresRange
              VK_PIPELINE_STAGE_TOP_OF_PIPE_BIT 0
              1 1 1 VK_IMAGE_LAYOUT_TRANSFER_DST_OPTIMAL
              VK_IMAGE_LAYOUT_SHADER_READ_ONLY_OPTIMAL SubresRange 0 0
              st0 tt (snd run1) st0 tt (snd run2) H1 H2)
    as (cmd1 & cmd2 & E1 & E2 & Hseq).
  exists cmd1, cmd2. split; [exact E1 | split; [exact E2 |]].
  destruct (Hseq st0) as [q Hq]. exists q. exact Hq.
Defined.

(** The source access mask of a layout is included in its destination
    access mask, but for [VK_IMAGE_LAYOUT_DEPTH_STENCIL_READ_ONLY_OPTIMAL]. *)
Lemma layout_switches_chain_fixed Layout b1 b2 :
  Layout <> VK_IMAGE_LAYOUT_DEPTH_STENCIL_READ_ONLY_OPTIMAL ->
  In Layout supported_NewLayouts ->
  layout_switches 0 0 VK_IMAGE_LAYOUT_UNDEFINED Layout (mkVkImageSubresourceRange 0 0 0 0 0)
    = Returns b1 ->
  layout_switches 0 0 Layout VK_IMAGE_LAYOUT_COLOR_ATTACHMENT_OPTIMAL
    (mkVkImageSubresourceRange 0 0 0 0 0) = Returns b2 ->
  mask_subset (srcAccessMask b2) (dstAccessMask b1).
Proof.
  intros Hne HL.
  cbv [supported_NewLayouts In] in HL.
  repeat (destruct HL as [<- | HL]); try contradiction;
    try (exfalso; apply Hne; reflexivity);
    intros H1 H2; vm_compute in H1, H2;
    injection H1 as <-; injection H2 as <-; reflexivity.
Qed.

(** X10: transitions chain: when one call enters a layout and another
    leaves it, the source access mask of the second barrier is included in
    the destination access mask of the first, provided neither new layout is
    [VK_IMAGE_LAYOUT_DEPTH_STENCIL_READ_ONLY_OPTIMAL]. *)
Theorem TransitionImageLayout_chain
    CmdBuffer1 Image1 AspectMask1 OldLayout SubresRange1 SrcStages1 DestStages1
    CmdBuffer2 Image2 AspectMask2 NewLayout SubresRange2 SrcStages2 DestStages2
    Layout sta r1 sta' stb r2 stb' :
  Layout <> VK_IMAGE_LAYOUT_DEPTH_STENCIL_READ_ONLY_OPTIMAL ->
  NewLayout <> VK_IMAGE_LAYOUT_DEPTH_STENCIL_READ_ONLY_OPTIMAL ->
  TransitionImageLayout CmdBuffer1 Image1 AspectMask1 OldLayout Layout SubresRange1
    SrcStages1 DestStages1 sta = (Returns r1, sta') ->
  TransitionImageLayout CmdBuffer2 Image2 AspectMask2 Layout NewLayout SubresRange2
    SrcStages2 DestStages2 stb = (Returns r2, stb') ->
  exists cmd1 b1 cmd2 b2,
    recorded sta' = recorded sta ++ [cmd1] /\ pImageMemoryBarriers cmd1 = [b1] /\
    recorded stb' = recorded stb ++ [cmd2] /\ pImageMemoryBarriers cmd2 = [b2] /\
    mask_subset (srcAccessMask b2) (dstAccessMask b1).
Proof.
  intros HL HN H1 H2.
  destruct (TransitionImageLayout_recorded _ _ _ _ _ _ _ _ _ _ _ H1)
    as (b1 & s1 & d1 & q1 & Hb1 & _ & _ & Hall1).
  destruct (TransitionImageLayout_recorded _ _ _ _ _ _ _ _ _ _ _ H2)
    as (b2 & s2 & d2 & q2 & Hb2 & _ & _ & Hall2).
  rewrite Hall1 in H1. rewrite Hall2 in H2.
  injection H1 as _ <-. injection H2 as _ <-.
  exists (mkPipelineBarrierCmd CmdBuffer1 s1 d1 0 0 [] 0 [] 1 [b1]), b1,
         (mkPipelineBarrierCmd CmdBuffer2 s2 d2 0 0 [] 0 [] 1 [b2]), b2.
  repeat (split; [reflexivity |]).
  destruct (layout_switches_returns_supported _ _ _ _ _ _ Hb1) as [_ HLnew].
  destruct (layout_switches_returns_supported _ _ _ _ _ _ Hb2) as [HLold _].
  set (R0 := mkVkImageSubresourceRange 0 0 0 0 0).
  destruct (layout_switches_supported 0 0 VK_IMAGE_LAYOUT_UNDEFINED Layout R0
              ltac:(simpl; tauto) HLnew) as (c1 & _ & _ & Hc1 & _).
  destruct (layout_switches_supported 0 0 Layout VK_IMAGE_LAYOUT_COLOR_ATTACHMENT_OPTIMAL R0
              HLold ltac:(simpl; tauto)) as (c2 & _ & _ & Hc2 & _).
  rewrite (layout_switches_dstAccessMask _ _ _ _ _ _ _ _ _ _ _ Hb1 Hc1).
  assert (HC : VK_IMAGE_LAYOUT_COLOR_ATTACHMENT_OPTIMAL <>
               VK_IMAGE_LAYOUT_DEPTH_STENCIL_READ_ONLY_OPTIMAL) by discriminate.
  rewrite (layout_switches_srcAccessMask _ _ _ _ _ _ _ _ _ _ _ HN HC Hb2 Hc2).
  now apply (layout_switches_chain_fixed Layout).
Qed.

Lemma TransitionImageLayout_chain_witness :
  let SubresRange := mkVkImageSubresourceRange 1 0 1 0 1 in
  let st0 := mkState [] [] in
  let run1 :=
    TransitionImageLayout 1 1 1 VK_IMAGE_LAYOUT_TRANSFER_DST_OPTIMAL
      VK_IMAGE_LAYOUT_SHADER_READ_ONLY_OPTIMAL SubresRange 0 0 st0 in
  let run2 :=
    TransitionImageLayout 1 1 1 VK_IMAGE_LAYOUT_SHADER_READ_ONLY_OPTIMAL
      VK_IMAGE_LAYOUT_COLOR_ATTACHMENT_OPTIMAL SubresRange 0 0 st0 in
  VK_IMAGE_LAYOUT_SHADER_READ_ONLY_OPTIMAL <> VK_IMAGE_LAYOUT_DEPTH_STENCIL_READ_ONLY_OPTIMAL /\
  VK_IMAGE_LAYOUT_COLOR_ATTACHMENT_OPTIMAL <> VK_IMAGE_LAYOUT_DEPTH_STENCIL_READ_ONLY_OPTIMAL /\
  run1 = (Returns tt, snd run1) /\ run2 = (Returns tt, snd run2) /\
  exists cmd1 b1 cmd2 b2,
    recorded (snd run1) = [cmd1] /\ pImageMemoryBarriers cmd1 = [b1] /\
    recorded (snd run2) = [cmd2] /\ pImageMemoryBarriers cmd2 = [b2] /\
    mask_subset (srcAccessMask b2) (dstAccessMask b1).
Proof.
  intros SubresRange st0 run1 run2.
  assert (HL : VK_IMAGE_LAYOUT_SHADER_READ_ONLY_OPTIMAL <>
               VK_IMAGE_LAYOUT_DEPTH_STENCIL_READ_ONLY_OPTIMAL) by discriminate.
  assert (HN : VK_IMAGE_LAYOUT_COLOR_ATTACHMENT_OPTIMAL <>
               VK_IMAGE_LAYOUT_DEPTH_STENCIL_READ_ONLY_OPTIMAL) by discriminate.
  assert (H1 : run1 = (Returns tt, snd run1)) by (vm_compute; reflexivity).
  assert (H2 : run2 = (Returns tt, snd run2)) by (vm_compute; reflexivity).
  split; [exact HL | split; [exact HN | split; [exact H1 | split; [exact H2 |]]]].
  exact (TransitionImageLayout_chain
           1 1 1 VK_IMAGE_LAYOUT_TRANSFER_DST_OPTIMAL SubresRange 0 0
           1 1 1 VK_IMAGE_LAYOUT_COLOR_ATTACHMENT_OPTIMAL SubresRange 0 0
           VK_IMAGE_LAYOUT_SHADER_READ_ONLY_OPTIMAL st0 tt (snd run1) st0 tt (snd run2)
           HL HN H1 H2).
Defined.

(** The layouts whose inferred source stage mask is empty. *)
Lemma layout_switches_src_stage_zero Image AspectMask OldLayout NewLayout SubresRange b s :
  layout_switches Image AspectMask OldLayout NewLayout SubresRange = Returns b ->
  PipelineStageFromAccessFlags (srcAccessMask b) = Returns s ->
  (s = 0 <->
   NewLayout <> VK_IMAGE_LAYOUT_DEPTH_STENCIL_READ_ONLY_OPTIMAL /\
   (OldLayout = VK_IMAGE_LAYOUT_UNDEFINED \/ OldLayout = VK_IMAGE_LAYOUT_PRESENT_SRC_KHR)).
Proof.
  intros Hb.
  destruct (layout_switches_returns_supported _ _ _ _ _ _ Hb) as [HO HN].
  revert Hb.
  cbv [supported_OldLayouts supported_NewLayouts In] in HO, HN.
  repeat (destruct HO as [<- | HO]); try contradiction;
    repeat (destruct HN as [<- | HN]); try contradiction;
    intros Hb Hs; vm_compute in Hb; injection Hb as <-;
    vm_compute in Hs; injection Hs as <-;
    (split;
     [ intros H; first [ discriminate H | split; [discriminate | tauto] ]
     | intros [H1 [H2 | H2]];
       first [ reflexivity | discriminate H2 | exfalso; apply H1; reflexivity ] ]).
Qed.

(** The layouts whose inferred destination stage mask is empty. *)
Lemma layout_switches_dst_stage_zero Image AspectMask OldLayout NewLayout SubresRange b d :
  layout_switches Image AspectMask OldLayout NewLayout SubresRange = Returns b ->
  PipelineStageFromAccessFlags (dstAccessMask b) = Returns d ->
  (d = 0 <->
   NewLayout = VK_IMAGE_LAYOUT_PRESENT_SRC_KHR \/
   NewLayout = VK_IMAGE_LAYOUT_DEPTH_STENCIL_READ_ONLY_OPTIMAL).
Proof.
  intros Hb.
  destruct (layout_switches_returns_supported _ _ _ _ _ _ Hb) as [HO HN].
  revert Hb.
  cbv [supported_OldLayouts supported_NewLayouts In] in HO, HN.
  repeat (destruct HO as [<- | HO]); try contradiction;
    repeat (destruct HN as [<- | HN]); try contradiction;
    intros Hb Hd; vm_compute in Hb; injection Hb as <-;
    vm_compute in Hd; injection Hd as <-;
    (split;
     [ intros H; first [ discriminate H | tauto ]
     | intros [H | H]; first [ reflexivity | discriminate H ] ]).
Qed.

(** X11: the command of a returning call has an empty source stage mask
    exactly when no source stage mask was supplied, the old layout is
    undefined or present-source and the new layout is not
    depth-stencil-read-only; it has an empty destination stage mask exactly
    when none was supplied and the new layout is present-source or
    depth-stencil-read-only. *)
Theorem TransitionImageLayout_empty_stage_mask CmdBuffer Image AspectMask OldLayout NewLayout
    SubresRange SrcStages DestStages st r st' :
  TransitionImageLayout CmdBuffer Image AspectMask OldLayout NewLayout SubresRange
    SrcStages DestStages st = (Returns r, st') ->
  exists cmd,
    recorded st' = recorded st ++ [cmd] /\
    (srcStageMask cmd = 0 <->
     SrcStages = 0 /\
     NewLayout <> VK_IMAGE_LAYOUT_DEPTH_STENCIL_READ_ONLY_OPTIMAL /\
     (OldLayout = VK_IMAGE_LAYOUT_UNDEFINED \/ OldLayout = VK_IMAGE_LAYOUT_PRESENT_SRC_KHR)) /\
    (dstStageMask cmd = 0 <->
     DestStages = 0 /\
     (NewLayout = VK_IMAGE_LAYOUT_PRESENT_SRC_KHR \/
      NewLayout = VK_IMAGE_LAYOUT_DEPTH_STENCIL_READ_ONLY_OPTIMAL)).
Proof.
  intros Hrun.
  destruct (TransitionImageLayout_recorded _ _ _ _ _ _ _ _ _ _ _ Hrun)
    as (b & s & d & q & Hb & Hs & Hd & Hall).
  rewrite Hall in Hrun. injection Hrun as _ <-.
  exists (mkPipelineBarrierCmd CmdBuffer s d 0 0 [] 0 [] 1 [b]).
  cbn [recorded srcStageMask dstStageMask].
  split; [reflexivity |]. split.
  - destruct (Z.eqb_spec SrcStages 0) as [HS | HS].
    + rewrite (layout_switches_src_stage_zero _ _ _ _ _ _ _ Hb Hs). tauto.
    + injection Hs as <-. tauto.
  - destruct (Z.eqb_spec DestStages 0) as [HD | HD].
    + rewrite (layout_switches_dst_stage_zero _ _ _ _ _ _ _ Hb Hd). tauto.
    + injection Hd as <-. tauto.
Qed.

Lemma TransitionImageLayout_empty_stage_mask_witness :
  let SubresRange := mkVkImageSubresourceRange 1 0 1 0 1 in
  let st0 := mkState [] [] in
  let run :=
    TransitionImageLayout 1 1 1 VK_IMAGE_LAYOUT_UNDEFINED
      VK_IMAGE_LAYOUT_COLOR_ATTACHMENT_OPTIMAL SubresRange 0 0 st0 in
  run = (Returns tt, snd run) /\
  exists cmd,
    recorded (snd run) = [cmd] /\ srcStageMask cmd = 0 /\ dstStageMask cmd <> 0.
Proof.
  intros SubresRange st0 run.
  assert (Hrun : run = (Returns tt, snd run)) by (vm_compute; reflexivity).
  split; [exact Hrun |].
  destruct (TransitionImageLayout_empty_stage_mask 1 1 1 VK_IMAGE_LAYOUT_UNDEFINED
              VK_IMAGE_LAYOUT_COLOR_ATTACHMENT_OPTIMAL SubresRange 0 0 st0 tt (snd run) Hrun)
    as (cmd & Hrec & Hsrc & Hdst).
  exists cmd. split; [exact Hrec | split].
  - apply (proj2 Hsrc). split; [reflexivity | split; [discriminate | left; reflexivity]].
  - intros Hz. destruct (proj1 Hdst Hz) as [_ [H | H]]; discriminate H.
Defined.

(** X12: the stage masks supplied to a call bear on the stage masks of the
    command only: calls that differ in them alone record the same image
    barrier on the same command buffer. *)
Theorem TransitionImageLayout_hints_leave_barrier CmdBuffer Image AspectMask OldLayout
    NewLayout SubresRange SrcStages DestStages SrcStages' DestStages' sta r sta' stb r' stb' :
  TransitionImageLayout CmdBuffer Image AspectMask OldLayout NewLayout SubresRange
    SrcStages DestStages sta = (Returns r, sta') ->
  TransitionImageLayout CmdBuffer Image AspectMask OldLayout NewLayout SubresRange
    SrcStages' DestStages' stb = (Returns r', stb') ->
  exists cmd cmd',
    recorded sta' = recorded sta ++ [cmd] /\
    recorded stb' = recorded stb ++ [cmd'] /\
    commandBuffer cmd = commandBuffer cmd' /\
    pImageMemoryBarriers cmd = pImageMemoryBarriers cmd'.
Proof.
  intros H1 H2.
  destruct (TransitionImageLayout_recorded _ _ _ _ _ _ _ _ _ _ _ H1)
    as (b1 & s1 & d1 & q1 & Hb1 & _ & _ & Hall1).
  destruct (TransitionImageLayout_recorded _ _ _ _ _ _ _ _ _ _ _ H2)
    as (b2 & s2 & d2 & q2 & Hb2 & _ & _ & Hall2).
  rewrite Hall1 in H1. rewrite Hall2 in H2.
  injection H1 as _ <-. injection H2 as _ <-.
  rewrite Hb1 in Hb2. injection Hb2 as <-.
  do 2 eexists. repeat split; reflexivity.
Qed.

Lemma TransitionImageLayout_hints_leave_barrier_witness :
  let SubresRange := mkVkImageSubresourceRange 1 0 1 0 1 in
  let st0 := mkState [] [] in
  let run SrcStages DestStages :=
    TransitionImageLayout 1 1 1 VK_IMAGE_LAYOUT_TRANSFER_SRC_OPTIMAL
      VK_IMAGE_LAYOUT_PRESENT_SRC_KHR SubresRange SrcStages DestStages st0 in
  run 0 0 = (Returns tt, snd (run 0 0)) /\
  run 0 VK_PIPELINE_STAGE_BOTTOM_OF_PIPE_BIT =
    (Returns tt, snd (run 0 VK_PIPELINE_STAGE_BOTTOM_OF_PIPE_BIT)) /\
  exists cmd cmd',
    recorded (snd (run 0 0)) = [cmd] /\
    recorded (snd (run 0 VK_PIPELINE_STAGE_BOTTOM_OF_PIPE_BIT)) = [cmd'] /\
    pImageMemoryBarriers cmd = pImageMemoryBarriers cmd'.
Proof.
  intros SubresRange st0 run.
  assert (H1 : run 0 0 = (Returns tt, snd (run 0 0))) by (vm_compute; reflexivity).
  assert (H2 : run 0 VK_PIPELINE_STAGE_BOTTOM_OF_PIPE_BIT =
               (Returns tt, snd (run 0 VK_PIPELINE_STAGE_BOTTOM_OF_PIPE_BIT)))
    by (vm_compute; reflexivity).
  split; [exact H1 | split; [exact H2 |]].
  destruct (TransitionImageLayout_hints_leave_barrier 1 1 1
              VK_IMAGE_LAYOUT_TRANSFER_SRC_OPTIMAL VK_IMAGE_LAYOUT_PRESENT_SRC_KHR SubresRange
              0 0 0 VK_PIPELINE_STAGE_BOTTOM_OF_PIPE_BIT
              st0 tt (snd (run 0 0)) st0 tt (snd (run 0 VK_PIPELINE_STAGE_BOTTOM_OF_PIPE_BIT))
              H1 H2) as (cmd & cmd' & E1 & E2 & _ & E3).
  exists cmd, cmd'. split; [exact E1 | split; [exact E2 | exact E3]].
Defined.
